(** * storeroom: node-IP / service-CIDR conflict probe

    A shallow embedding of [main/main.go] and of the parts of the Go
    standard library ([net], [time]) and of [k8s.io/apimachinery]'s
    [sets.String] that the program calls, followed by the properties of
    the probe stated in its specification.

    Conventions.
    - A Go [byte] is a [Byte.byte]; a Go byte slice that may be [nil] is an
      [option (list byte)], [None] being the [nil] slice.
    - A Go [string] is a Rocq [string] (a sequence of 8-bit characters).
    - A Go [error] is the text of its message; a [(T, error)] result is
      [Ok v] or [Err e].
    - [sets.String] is a finite set of strings, [gset string]; the order in
      which a Go map is ranged over is an input of each pass.
    - Everything the program does to the outside world (platform calls,
      log lines, sleeps) is recorded, in program order, in a trace. *)

From Stdlib Require Import ZArith NArith List String Ascii Lia.
From Stdlib.Strings Require Import Byte.
From stdpp Require Import base option list gmap sets strings.

Set Default Proof Using "Type".
Set Warnings "-clear-no-such-hyp".
Local Open Scope string_scope.

(** ** Errors and results *)

Definition error := string.

Inductive result (A : Type) : Type :=
| Ok (v : A)
| Err (e : error).
Arguments Ok {A} v.
Arguments Err {A} e.

Definition is_ok {A} (r : result A) : bool :=
  match r with Ok _ => true | Err _ => false end.

(** ** Bytes and characters *)

Definition byte_of_N (n : N) : byte :=
  match Byte.of_N (n mod 256) with Some b => b | None => x00 end.

Definition byte_and (a b : byte) : byte :=
  byte_of_N (N.land (Byte.to_N a) (Byte.to_N b)).

Definition byte_not (a : byte) : byte :=
  byte_of_N (255 - Byte.to_N a).

Definition isDigit (c : ascii) : bool :=
  (48 <=? N_of_ascii c)%N && (N_of_ascii c <=? 57)%N.

Definition digitVal (c : ascii) : N := (N_of_ascii c - 48)%N.

Definition digitChar (n : N) : ascii := ascii_of_N (48 + n).

(** [s[i:]] for a string. *)
Fixpoint strDrop (i : nat) (s : string) : string :=
  match i, s with
  | O, _ => s
  | S i', String _ s' => strDrop i' s'
  | S _, EmptyString => EmptyString
  end.

(** [bytealg.IndexByteString]: the index of the first [c] in [s]. *)
Fixpoint indexByte (c : ascii) (s : string) : option nat :=
  match s with
  | EmptyString => None
  | String c' s' =>
      if Ascii.eqb c' c then Some O else option_map S (indexByte c s')
  end.

(** [s[:i]] for a string. *)
Fixpoint strTake (i : nat) (s : string) : string :=
  match i, s with
  | O, _ => EmptyString
  | S i', String c s' => String c (strTake i' s')
  | S _, EmptyString => EmptyString
  end.

(** ** The Go [net] package, as far as the probe uses it *)

Module net.

Definition IP := option (list byte).
Definition IPMask := option (list byte).

Definition IPv4len : nat := 4.
Definition IPv6len : nat := 16.

Definition len (ip : option (list byte)) : nat :=
  match ip with None => 0 | Some l => length l end.

(** [bytealg.Equal] *)
Fixpoint bytesEqual (a b : list byte) : bool :=
  match a, b with
  | [], [] => true
  | x :: a', y :: b' => Byte.eqb x y && bytesEqual a' b'
  | _, _ => false
  end.

Definition v4InV6Prefix : list byte :=
  [x00; x00; x00; x00; x00; x00; x00; x00; x00; x00; xff; xff].

Definition IPv6loopback : list byte :=
  [x00; x00; x00; x00; x00; x00; x00; x00;
   x00; x00; x00; x00; x00; x00; x00; x01].

(** [func IPv4(a, b, c, d byte) IP]: the 16-byte form. *)
Definition IPv4 (a b c d : byte) : IP :=
  Some (v4InV6Prefix ++ [a; b; c; d])%list.

Definition isZeros (p : list byte) : bool :=
  forallb (fun b => Byte.eqb b x00) p.

Definition allFF (p : list byte) : bool :=
  forallb (fun b => Byte.eqb b xff) p.

(** [func (ip IP) To4() IP] *)
Definition To4 (ip : IP) : IP :=
  match ip with
  | None => None
  | Some l =>
      if Nat.eqb (length l) IPv4len then Some l
      else if Nat.eqb (length l) IPv6len
              && isZeros (take 10 l)
              && Byte.eqb (nth 10 l x00) xff
              && Byte.eqb (nth 11 l x00) xff
      then Some (take 4 (drop 12 l))
      else None
  end.

(** [func (ip IP) Equal(x IP) bool] *)
Definition Equal (ip x : IP) : bool :=
  let a := default [] ip in
  let b := default [] x in
  if Nat.eqb (length a) (length b) then bytesEqual a b
  else if Nat.eqb (length a) IPv4len && Nat.eqb (length b) IPv6len
  then bytesEqual (take 12 b) v4InV6Prefix && bytesEqual a (drop 12 b)
  else if Nat.eqb (length a) IPv6len && Nat.eqb (length b) IPv4len
  then bytesEqual (take 12 a) v4InV6Prefix && bytesEqual (drop 12 a) b
  else false.

(** [func (ip IP) IsLoopback() bool] *)
Definition IsLoopback (ip : IP) : bool :=
  match To4 ip with
  | Some ip4 => Byte.eqb (nth 0 ip4 x00) x7f
  | None => Equal ip (Some IPv6loopback)
  end.

(** [func (ip IP) IsLinkLocalUnicast() bool] *)
Definition IsLinkLocalUnicast (ip : IP) : bool :=
  match To4 ip with
  | Some ip4 => Byte.eqb (nth 0 ip4 x00) xa9 && Byte.eqb (nth 1 ip4 x00) xfe
  | None =>
      Nat.eqb (len ip) IPv6len
      && Byte.eqb (nth 0 (default [] ip) x00) xfe
      && Byte.eqb (byte_and (nth 1 (default [] ip) x00) xc0) x80
  end.

(** [ubtoa]: the decimal digits of a byte, without leading zeros. *)
Definition ubtoa (v : byte) : string :=
  let n := Byte.to_N v in
  if (n <? 10)%N then String (digitChar n) EmptyString
  else if (n <? 100)%N then
    String (digitChar (n / 10)) (String (digitChar (n mod 10)) EmptyString)
  else
    String (digitChar (n / 100))
      (String (digitChar ((n / 10) mod 10))
         (String (digitChar (n mod 10)) EmptyString)).

Definition hexDigit (n : N) : ascii :=
  if (n <? 10)%N then ascii_of_N (48 + n) else ascii_of_N (87 + n).

(** [hexString]: two lower-case hexadecimal digits per byte. *)
Fixpoint hexString (b : list byte) : string :=
  match b with
  | [] => EmptyString
  | v :: b' =>
      String (hexDigit (Byte.to_N v / 16))
        (String (hexDigit (Byte.to_N v mod 16)) (hexString b'))
  end.

Definition dotted (a b c d : byte) : string :=
  ubtoa a +:+ "." +:+ ubtoa b +:+ "." +:+ ubtoa c +:+ "." +:+ ubtoa d.

Definition big : N := 16777215.  (* 0xFFFFFF *)

(** [func dtoi(s string) (n int, i int, ok bool)]: the loop, started at
    [n] with [i] characters already consumed. *)
Fixpoint dtoiFrom (s : string) (n : N) (i : nat) : N * nat * bool :=
  match s with
  | String c s' =>
      if isDigit c then
        let n' := (n * 10 + digitVal c)%N in
        if (big <=? n')%N then (big, i, false)
        else dtoiFrom s' n' (S i)
      else if Nat.eqb i 0 then (0%N, 0, false) else (n, i, true)
  | EmptyString =>
      if Nat.eqb i 0 then (0%N, 0, false) else (n, i, true)
  end.

Definition dtoi (s : string) : N * nat * bool := dtoiFrom s 0%N 0.

Section Codec.

(** The IPv6 text codec ([parseIPv6] and the IPv6 branch of
    [IP.String]) is left abstract: the probe never stores an IPv6
    address, and nothing below depends on what these two functions
    compute. *)
Variable parseIPv6 : string -> IP.
Variable ip6String : list byte -> string.

(** Whether a decimal octet with a leading zero is refused ([true]:
    [net.ParseIP] since Go 1.17; [false]: earlier releases and the
    "sloppy" parser forked from them). *)
Variable strict : bool.

(** [func (ip IP) String() string] *)
Definition IP_String (ip : IP) : string :=
  if Nat.eqb (len ip) 0 then "<nil>"
  else
    match To4 ip with
    | Some [a; b; c; d] => dotted a b c d
    | _ =>
        if negb (Nat.eqb (len ip) IPv6len)
        then "?" +:+ hexString (default [] ip)
        else ip6String (default [] ip)
    end.

(** [parseIPv4]: the loop over the four octets; [i] is the index of
    the octet to read next and [p] holds the octets read so far. *)
Fixpoint parseIPv4From (fuel : nat) (i : nat) (s : string) (p : list byte)
  : IP :=
  match fuel with
  | O =>
      if Nat.eqb (String.length s) 0
      then match p with
           | [a; b; c; d] => IPv4 a b c d
           | _ => None
           end
      else None
  | S fuel' =>
      if Nat.eqb (String.length s) 0 then None
      else
        let s1 :=
          if Nat.ltb 0 i then
            match s with
            | String "."%char s' => Some s'
            | _ => None
            end
          else Some s in
        match s1 with
        | None => None
        | Some s1 =>
            let '(n, c, ok) := dtoi s1 in
            if negb ok || (255 <? n)%N then None
            else if strict && Nat.ltb 1 c
                    && match s1 with
                       | String "0"%char _ => true
                       | _ => false
                       end
            then None
            else parseIPv4From fuel' (S i) (strDrop c s1)
                   (p ++ [byte_of_N n])%list
        end
  end.

Definition parseIPv4 (s : string) : IP := parseIPv4From IPv4len 0 s [].

(** [func ParseIP(s string) IP] *)
Fixpoint ParseIPScan (rest whole : string) : IP :=
  match rest with
  | EmptyString => None
  | String "."%char _ => parseIPv4 whole
  | String ":"%char _ => parseIPv6 whole
  | String _ rest' => ParseIPScan rest' whole
  end.

Definition ParseIP (s : string) : IP := ParseIPScan s s.

(** [func CIDRMask(ones, bits int) IPMask]: the loop filling the
    [l] bytes of the mask, [n] one-bits remaining. *)
Fixpoint cidrMaskBytes (l : nat) (n : N) : list byte :=
  match l with
  | O => []
  | S l' =>
      if (8 <=? n)%N then xff :: cidrMaskBytes l' (n - 8)%N
      else byte_not (byte_of_N (N.shiftr 255 n)) :: cidrMaskBytes l' 0%N
  end.

Definition CIDRMask (ones bits : N) : IPMask :=
  if negb (N.eqb bits (8 * N.of_nat IPv4len))
     && negb (N.eqb bits (8 * N.of_nat IPv6len))
  then None
  else if (bits <? ones)%N then None
  else Some (cidrMaskBytes (N.to_nat (bits / 8)) ones).

(** [out[i] = ip[i] & mask[i]] for two slices of the same length. *)
Fixpoint andBytes (ip mask : list byte) : list byte :=
  match ip, mask with
  | x :: ip', m :: mask' => byte_and x m :: andBytes ip' mask'
  | _, _ => []
  end.

(** [func (ip IP) Mask(mask IPMask) IP] *)
Definition Mask (ip : IP) (mask : IPMask) : IP :=
  let m0 := default [] mask in
  let p0 := default [] ip in
  let m1 :=
    if Nat.eqb (length m0) IPv6len && Nat.eqb (length p0) IPv4len
       && allFF (take 12 m0)
    then drop 12 m0 else m0 in
  let p1 :=
    if Nat.eqb (length m1) IPv4len && Nat.eqb (length p0) IPv6len
       && bytesEqual (take 12 p0) v4InV6Prefix
    then drop 12 p0 else p0 in
  if negb (Nat.eqb (length p1) (length m1)) then None
  else Some (andBytes p1 m1).

(** [type IPNet struct { IP IP; Mask IPMask }] *)
Record IPNet := mkIPNet { ipnet_IP : IP; ipnet_Mask : IPMask }.

(** [func networkNumberAndMask(n *IPNet) (ip IP, m IPMask)] *)
Definition networkNumberAndMask (n : IPNet) : IP * IPMask :=
  let ip :=
    match To4 (ipnet_IP n) with
    | Some ip4 => Some (Some ip4)
    | None =>
        if negb (Nat.eqb (len (ipnet_IP n)) IPv6len) then None
        else Some (ipnet_IP n)
    end in
  match ip with
  | None => (None, None)
  | Some ip =>
      let m := ipnet_Mask n in
      if Nat.eqb (len m) IPv4len then
        if negb (Nat.eqb (len ip) IPv4len) then (None, None)
        else (ip, m)
      else if Nat.eqb (len m) IPv6len then
        if Nat.eqb (len ip) IPv4len
        then (ip, Some (drop 12 (default [] m)))
        else (ip, m)
      else (None, None)
  end.

(** The loop of [Contains]: no index at which the masked bytes differ. *)
Fixpoint sameUnderMask (nn m ip : list byte) : bool :=
  match nn, m, ip with
  | x :: nn', k :: m', y :: ip' =>
      if negb (Byte.eqb (byte_and x k) (byte_and y k)) then false
      else sameUnderMask nn' m' ip'
  | _, _, _ => true
  end.

(** [func (n *IPNet) Contains(ip IP) bool] *)
Definition Contains (n : IPNet) (ip : IP) : bool :=
  let '(nn, m) := networkNumberAndMask n in
  let ip := match To4 ip with Some x => Some x | None => ip end in
  let l := len ip in
  if negb (Nat.eqb l (len nn)) then false
  else sameUnderMask (default [] nn) (default [] m) (default [] ip).

(** [func ParseCIDR(s string) (IP, *IPNet, error)] *)
Definition ParseCIDR (s : string) : IP * option IPNet * option error :=
  let failure :=
    (None, None, Some ("invalid CIDR address: " +:+ s)) in
  match indexByte "/" s with
  | None => failure
  | Some i =>
      let addr := strTake i s in
      let mask := strDrop (S i) s in
      let '(iplen, ip) :=
        match parseIPv4 addr with
        | Some p => (IPv4len, Some p)
        | None => (IPv6len, parseIPv6 addr)
        end in
      let '(n, j, ok) := dtoi mask in
      if match ip with None => true | Some _ => false end
         || negb ok
         || negb (Nat.eqb j (String.length mask))
         || (8 * N.of_nat iplen <? n)%N
      then failure
      else
        let m := CIDRMask n (8 * N.of_nat iplen) in
        (ip, Some (mkIPNet (Mask ip m) m), None)
  end.

End Codec.

End net.

(** ** [k8s.io/apimachinery/pkg/util/sets]: [sets.String] *)

Module sets.

(** [func NewString(items ...string) String], without items. *)
Definition NewString : gset string := ∅.

(** [func (s String) Insert(items ...string) String], one item. *)
Definition Insert (s : gset string) (item : string) : gset string :=
  {[item]} ∪ s.

(** [func (s String) Has(item string) bool] *)
Definition Has (s : gset string) (item : string) : bool :=
  bool_decide (item ∈ s).

(** [func (s1 String) Difference(s2 String) String]: ranges over [s1]
    and inserts into a fresh set the keys that [s2] does not have. *)
Definition Difference (s1 s2 : gset string) : gset string :=
  set_fold (fun key result => if Has s2 key then result else Insert result key)
    NewString s1.

(** The order in which a [range] over the underlying map yields the
    keys.  Go leaves it unspecified (and randomises it), so it is a
    parameter; it is _fair_ when it yields every key exactly once. *)
Definition RangeOrder := gset string -> list string.

Definition fair (order : RangeOrder) : Prop :=
  forall s, order s ≡ₚ elements s.

(** [func (s String) UnsortedList() []string] *)
Definition UnsortedList (order : RangeOrder) (s : gset string)
  : list string := order s.

End sets.

(** ** The Go [time] package: [ParseDuration] and [Sleep] *)

Module time.

(** [type Duration int64], in nanoseconds. *)
Definition Duration := Z.

Definition two63 : N := 9223372036854775808.
Definition two64 : N := 18446744073709551616.

Definition micro_sign : string :=   (* U+00B5, UTF-8 *)
  String (ascii_of_N 194) (String (ascii_of_N 181) EmptyString).
Definition greek_mu : string :=     (* U+03BC, UTF-8 *)
  String (ascii_of_N 206) (String (ascii_of_N 188) EmptyString).

(** [var unitMap = map[string]uint64{...}] *)
Definition unitMap (u : string) : option N :=
  if String.eqb u "ns" then Some 1%N
  else if String.eqb u "us" then Some 1000%N
  else if String.eqb u (micro_sign +:+ "s") then Some 1000%N
  else if String.eqb u (greek_mu +:+ "s") then Some 1000%N
  else if String.eqb u "ms" then Some 1000000%N
  else if String.eqb u "s" then Some 1000000000%N
  else if String.eqb u "m" then Some 60000000000%N
  else if String.eqb u "h" then Some 3600000000000%N
  else None.

(** [func leadingInt(s) (x uint64, rem string, err error)]; [None] is
    the overflow error. *)
Fixpoint leadingInt (s : string) (x : N) : option (N * string) :=
  match s with
  | String c s' =>
      if negb (isDigit c) then Some (x, s)
      else if (two63 / 10 <? x)%N then None
      else
        let x' := (x * 10 + digitVal c)%N in
        if (two63 <? x')%N then None
        else leadingInt s' x'
  | EmptyString => Some (x, s)
  end.

(** [func leadingFraction(s) (x uint64, scale float64, rem string)].
    [scale] is a power of ten below [10^20], exactly representable. *)
Fixpoint leadingFraction (s : string) (x scale : N) (overflow : bool)
  : N * N * string :=
  match s with
  | String c s' =>
      if negb (isDigit c) then (x, scale, s)
      else if overflow then leadingFraction s' x scale overflow
      else if ((two63 - 1) / 10 <? x)%N then leadingFraction s' x scale true
      else
        let y := (x * 10 + digitVal c)%N in
        if (two63 <? y)%N then leadingFraction s' x scale true
        else leadingFraction s' y (scale * 10)%N overflow
  | EmptyString => (x, scale, s)
  end.

(** The length of the unit: the characters up to the next ['.'] or
    digit. *)
Fixpoint unitLen (s : string) : nat :=
  match s with
  | String c s' =>
      if Ascii.eqb c "."%char || isDigit c then 0 else S (unitLen s')
  | EmptyString => 0
  end.

Section ParseDuration.

(** [uint64(float64(f) * (float64(unit) / scale))]: the one place
    where [ParseDuration] computes in floating point.  It is kept
    abstract; what is used of it, where it matters, is that a proper
    fraction of a unit is no more than the unit. *)
Variable f64MulDiv : N -> N -> N -> N.

(** The error texts are those of Go, except that Go puts the duration
    and the unit between double quotes ([quote(orig)], [quote(u)]); the
    quotes, and the escapes [quote] writes inside them, are left out. *)
Definition invalid (orig : string) : result Duration :=
  Err ("time: invalid duration " +:+ orig).

(** The arithmetic on one term [v.f unit] of a duration: the new value of
    the sum [d], or [None] where Go reports an overflow.  All of it is
    [uint64] arithmetic. *)
Definition addTerm (v f scale unit d : N) : option N :=
  if (two63 / unit <? v)%N then None
  else
    let v1 := (v * unit)%N in
    let v2 :=
      if (0 <? f)%N
      then ((v1 + f64MulDiv f unit scale) mod two64)%N
      else v1 in
    if (0 <? f)%N && (two63 <? v2)%N then None
    else
      let d' := ((d + v2) mod two64)%N in
      if (two63 <? d')%N then None else Some d'.

(** The body of [for s != "" { ... }]; [d] is the sum so far. *)
Fixpoint parseTerms (fuel : nat) (orig s : string) (d : N)
  : result N :=
  match fuel with
  | O => Err ("time: invalid duration " +:+ orig)
  | S fuel' =>
      match s with
      | EmptyString => Ok d
      | String c0 _ =>
          if negb (Ascii.eqb c0 "."%char || isDigit c0)
          then Err ("time: invalid duration " +:+ orig)
          else
            match leadingInt s 0%N with
            | None => Err ("time: invalid duration " +:+ orig)
            | Some (v, s1) =>
                let pre :=
                  negb (Nat.eqb (String.length s) (String.length s1)) in
                let '(f, scale, s2, post) :=
                  match s1 with
                  | String "."%char s1' =>
                      let '(f, scale, s2) :=
                        leadingFraction s1' 0%N 1%N false in
                      (f, scale, s2,
                       negb (Nat.eqb (String.length s1') (String.length s2)))
                  | _ => (0%N, 1%N, s1, false)
                  end in
                if negb pre && negb post
                then Err ("time: invalid duration " +:+ orig)
                else
                  let i := unitLen s2 in
                  if Nat.eqb i 0
                  then Err ("time: missing unit in duration " +:+ orig)
                  else
                    let u := strTake i s2 in
                    let s3 := strDrop i s2 in
                    match unitMap u with
                    | None =>
                        Err ("time: unknown unit " +:+ u
                             +:+ " in duration " +:+ orig)
                    | Some unit =>
                        match addTerm v f scale unit d with
                        | None => Err ("time: invalid duration " +:+ orig)
                        | Some d' => parseTerms fuel' orig s3 d'
                        end
                    end
            end
      end
  end.

(** The end of [ParseDuration]: the sign, and the range of a positive
    duration. *)
Definition signed (neg : bool) (d : N) (orig : string) : result Duration :=
  if neg then Ok (- Z.of_N d)%Z
  else if (two63 - 1 <? d)%N then invalid orig
  else Ok (Z.of_N d).

(** [func ParseDuration(s string) (Duration, error)] *)
Definition ParseDuration (s : string) : result Duration :=
  let orig := s in
  let '(neg, s) :=
    match s with
    | String "-"%char s' => (true, s')
    | String "+"%char s' => (false, s')
    | _ => (false, s)
    end in
  if String.eqb s "0" then Ok 0%Z
  else if String.eqb s "" then invalid orig
  else
    match parseTerms (String.length s) orig s 0%N with
    | Err e => Err e
    | Ok d => signed neg d orig
    end.

End ParseDuration.

(** [func Sleep(d Duration)]: how long the caller is paused.  "A
    negative or zero duration causes Sleep to return immediately." *)
Definition Sleep (d : Duration) : Z := Z.max 0 d.

End time.

(** ** The host, the log and the trace *)

(** [net.Addr]: the probe distinguishes [*net.IPAddr], [*net.IPNet] and
    every other implementation of the interface. *)
Inductive Addr :=
| IPAddr (ip : net.IP) (zone : string)
| IPNetAddr (n : net.IPNet)
| OtherAddr (network text : string).

(** [net.Interface], with what [ifi.Addrs()] answers. *)
Record Interface := mkInterface {
  ifi_Name : string;
  ifi_Addrs : result (list Addr)
}.

(** What one pass finds on the host: the answers of [net.InterfaceAddrs]
    and [net.InterfaceByName], and the order in which the candidate set is
    ranged over. *)
Record Host := mkHost {
  host_InterfaceAddrs : result (list Addr);
  host_InterfaceByName : string -> result Interface;
  host_order : sets.RangeOrder
}.

(** The [klog.Error] and [klog.Errorf] calls of [main.go], one
    constructor per call site, with the values that are printed. *)
Inductive LogMsg :=
| LogUsage                                  (* main.go:19 *)
| LogParseTime (err : error)                (* main.go:26 *)
| LogFetchFailed (err : error)              (* main.go:32 *)
| LogNodeIPs (ips : list net.IP)            (* main.go:34 *)
| LogParseCIDR (err : error)                (* main.go:57 *)
| LogConflict (a : net.IP)                  (* main.go:61 *)
| LogContext (nodeAddress bindedAddress : gset string)
    (ips : list net.IP).                    (* main.go:66 *)

(** What the program does to the outside world: the calls to the
    platform ([net.InterfaceAddrs], [net.InterfaceByName], [ifi.Addrs],
    [net.ParseCIDR], [time.ParseDuration], [time.Sleep]) and the log
    lines. *)
Inductive Event :=
| EvInterfaceAddrs
| EvInterfaceByName (dev : string)
| EvAddrs (name : string)
| EvParseCIDR (s : string)
| EvParseDuration (s : string)
| EvLog (m : LogMsg)
| EvSleep (d : time.Duration).

(** A computation that leaves a trace. *)
Definition M (A : Type) : Type := A * list Event.

#[global] Instance M_ret : MRet M := fun A a => (a, []).

#[global] Instance M_bind : MBind M := fun A B k m =>
  let '(a, t) := m in
  let '(b, t') := k a in
  (b, t ++ t')%list.

Definition emit (e : Event) : M unit := (tt, [e]).

Definition klog_Error (m : LogMsg) : M unit := emit (EvLog m).

Definition value {A} (m : M A) : A := fst m.
Definition trace {A} (m : M A) : list Event := snd m.

(** Trace observations. *)
Definition isParseCIDR (e : Event) : bool :=
  match e with EvParseCIDR _ => true | _ => false end.

Definition isEnumeration (e : Event) : bool :=
  match e with
  | EvInterfaceAddrs | EvInterfaceByName _ | EvAddrs _ => true
  | _ => false
  end.

Definition parseErrorsLogged (t : list Event) : list error :=
  omap (fun e => match e with
                 | EvLog (LogParseCIDR err) => Some err
                 | _ => None
                 end) t.

Definition conflictsLogged (t : list Event) : list net.IP :=
  omap (fun e => match e with
                 | EvLog (LogConflict a) => Some a
                 | _ => None
                 end) t.

Definition contextsLogged (t : list Event) : list (list net.IP) :=
  omap (fun e => match e with
                 | EvLog (LogContext _ _ ips) => Some ips
                 | _ => None
                 end) t.

Definition sleeps (t : list Event) : list time.Duration :=
  omap (fun e => match e with EvSleep d => Some d | _ => None end) t.

(** The time spent in [time.Sleep], for a list of sleeps and for a
    trace. *)
Definition paused_of (ds : list time.Duration) : Z :=
  foldr Z.add 0%Z (map time.Sleep ds).

Definition paused (t : list Event) : Z := paused_of (sleeps t).

(** ** [main/main.go] *)

Module Main.

Section Probe.

(** The parts of the platform the probe is indifferent to: the IPv6 text
    codec of [net], whether [ParseIP] and [net.ParseCIDR] refuse leading
    zeros in a decimal octet, and the floating-point product of
    [time.ParseDuration]. *)
Variable parseIPv6 : string -> net.IP.
Variable ip6String : list byte -> string.
Variable strictIP strictCIDR : bool.
Variable f64MulDiv : N -> N -> N -> N.

(** Modelled from the spec: [ParseIP] is called by [fetchNodeIPs] and
    defined nowhere in [main.go].  The specification has the detector
    "parse/normalize" each candidate "to binary form", and the
    commented-out declaration next to the imports names the parser forked
    from Go's [net.ParseIP]: it is that parser, for either treatment of
    leading zeros. *)
Definition ParseIP (s : string) : net.IP :=
  net.ParseIP parseIPv6 strictIP s.

(** [func IsIPv6(netIP net.IP) bool] *)
Definition IsIPv6 (netIP : net.IP) : bool :=
  match netIP with None => false | Some _ => true end
  && match net.To4 netIP with None => true | Some _ => false end.

(** [func isValidForSet(ip net.IP) bool] *)
Definition isValidForSet (ip : net.IP) : bool :=
  if IsIPv6 ip then false
  else if net.IsLoopback ip then false
  else true.

(** [func AddressSet(isValid func(ip net.IP) bool, addrs []net.Addr)
    sets.String]: the loop, with the set built so far. *)
Fixpoint AddressSetFrom (isValid : net.IP -> bool) (addrs : list Addr)
    (ips : gset string) : gset string :=
  match addrs with
  | [] => ips
  | a :: addrs' =>
      match
        match a with
        | IPAddr ip _ => Some ip
        | IPNetAddr n => Some (net.ipnet_IP n)
        | OtherAddr _ _ => None
        end
      with
      | None => AddressSetFrom isValid addrs' ips
      | Some ip =>
          if isValid ip
          then AddressSetFrom isValid addrs'
                 (sets.Insert ips (net.IP_String ip6String ip))
          else AddressSetFrom isValid addrs' ips
      end
  end.

Definition AddressSet (isValid : net.IP -> bool) (addrs : list Addr)
  : gset string :=
  AddressSetFrom isValid addrs sets.NewString.

(** [func getAllLocalAddresses() (sets.String, error)] *)
Definition getAllLocalAddresses (h : Host) : M (result (gset string)) :=
  emit EvInterfaceAddrs ;;
  match host_InterfaceAddrs h with
  | Err err => mret (Err ("Could not get addresses: " +:+ err))
  | Ok addr => mret (Ok (AddressSet isValidForSet addr))
  end.

(** [func GetLocalAddresses(dev string) (sets.String, error)] *)
Definition GetLocalAddresses (h : Host) (dev : string)
  : M (result (gset string)) :=
  emit (EvInterfaceByName dev) ;;
  match host_InterfaceByName h dev with
  | Err err =>
      mret (Err ("Could not get interface " +:+ dev +:+ ": " +:+ err))
  | Ok ifi =>
      emit (EvAddrs (ifi_Name ifi)) ;;
      match ifi_Addrs ifi with
      | Err err =>
          mret (Err ("Can't get addresses from " +:+ ifi_Name ifi
                     +:+ ": " +:+ err))
      | Ok addr => mret (Ok (AddressSet isValidForSet addr))
      end
  end.

(** [func bindedIPs() (sets.String, error)] *)
Definition bindedIPs (h : Host) : M (result (gset string)) :=
  GetLocalAddresses h "kube-ipvs0".

(** The variables the loop of [fetchNodeIPs] updates. *)
Record LoopVars := mkLoopVars {
  ips : list net.IP;
  invalidIP : bool
}.

Definition call_ParseCIDR (s : string)
  : M (net.IP * option net.IPNet * option error) :=
  emit (EvParseCIDR s) ;;
  mret (net.ParseCIDR parseIPv6 strictCIDR s).

(** The body of [for _, ipStr := range ipset.UnsortedList()]
    (main.go:53-62). *)
Definition loopBody (CIDR : string) (vars : LoopVars) (ipStr : string)
  : M LoopVars :=
  let a := ParseIP ipStr in
  let ips := (ips vars ++ [a])%list in
  r ← call_ParseCIDR CIDR;
  let '(_, ipnet, err) := r in
  match err with
  | Some err => klog_Error (LogParseCIDR err)
  | None => mret tt
  end ;;
  match ipnet with
  | Some ipnet =>
      if net.Contains ipnet a && negb (invalidIP vars)
      then klog_Error (LogConflict a) ;; mret (mkLoopVars ips true)
      else mret (mkLoopVars ips (invalidIP vars))
  | None => mret (mkLoopVars ips (invalidIP vars))
  end.

Fixpoint rangeLoop (CIDR : string) (l : list string) (vars : LoopVars)
  : M LoopVars :=
  match l with
  | [] => mret vars
  | ipStr :: l' =>
      vars' ← loopBody CIDR vars ipStr;
      rangeLoop CIDR l' vars'
  end.

(** main.go:51-64: [invalidIP := false] and the loop over the set. *)
Definition detect (CIDR : string) (order : sets.RangeOrder)
    (ipset : gset string) : M LoopVars :=
  rangeLoop CIDR (sets.UnsortedList order ipset) (mkLoopVars [] false).

(** [func fetchNodeIPs() (ips []net.IP, err error)]; the global [CIDR]
    is an argument. *)
Definition fetchNodeIPs (CIDR : string) (h : Host)
  : M (result (list net.IP)) :=
  r ← getAllLocalAddresses h;
  match r with
  | Err err =>
      mret (Err ("error listing LOCAL type addresses from host, error: "
                 +:+ err))
  | Ok nodeAddress =>
      r ← bindedIPs h;
      match r with
      | Err err => mret (Err err)
      | Ok bindedAddress =>
          let ipset := sets.Difference nodeAddress bindedAddress in
          vars ← detect CIDR (host_order h) ipset;
          (if invalidIP vars
           then klog_Error (LogContext nodeAddress bindedAddress (ips vars))
           else mret tt) ;;
          mret (Ok (ips vars))
      end
  end.

(** How [main] leaves its start-up code: by [return], or into the
    loop with the interval and the CIDR string. *)
Inductive Startup :=
| Return
| EnterLoop (duration : time.Duration) (CIDR : string).

(** main.go:18-28; [Args] is [os.Args], the program name first. *)
Definition startup (Args : list string) : M Startup :=
  if Nat.ltb (length Args) 3
  then klog_Error LogUsage ;; mret Return
  else
    let sleepTime := nth 1 Args "" +:+ "ms" in
    let CIDR := nth 2 Args "" in
    emit (EvParseDuration sleepTime) ;;
    match time.ParseDuration f64MulDiv sleepTime with
    | Err err => klog_Error (LogParseTime err) ;; mret Return
    | Ok duration => mret (EnterLoop duration CIDR)
    end.

(** One iteration of [for { ... }] (main.go:30-36). *)
Definition iteration (duration : time.Duration) (CIDR : string) (h : Host)
  : M unit :=
  r ← fetchNodeIPs CIDR h;
  match r with
  | Err err => klog_Error (LogFetchFailed err)
  | Ok ips => klog_Error (LogNodeIPs ips)
  end ;;
  emit (EvSleep duration).

(** The loop has neither [break] nor [return]: it runs one iteration
    per host state it is given and is then still looping. *)
Fixpoint loop (duration : time.Duration) (CIDR : string)
    (hosts : list Host) : M unit :=
  match hosts with
  | [] => mret tt
  | h :: hosts' =>
      iteration duration CIDR h ;; loop duration CIDR hosts'
  end.

Inductive Status := Exited | Looping.

(** [func main()], observed for as many passes as there are host
    states in [hosts]. *)
Definition main (Args : list string) (hosts : list Host) : M Status :=
  s ← startup Args;
  match s with
  | Return => mret Exited
  | EnterLoop duration CIDR =>
      loop duration CIDR hosts ;; mret Looping
  end.

(** *** Derived notions used in the statements *)

(** The three sets of a pass whose two address sources both answer:
    [nodeAddress], [bindedAddress] and their difference [ipset]. *)
Definition collect (h : Host)
  : result (gset string * gset string * gset string) :=
  match value (getAllLocalAddresses h) with
  | Err err =>
      Err ("error listing LOCAL type addresses from host, error: " +:+ err)
  | Ok nodeAddress =>
      match value (bindedIPs h) with
      | Err err => Err err
      | Ok bindedAddress =>
          Ok (nodeAddress, bindedAddress,
              sets.Difference nodeAddress bindedAddress)
      end
  end.

(** The value of [invalidIP] when the loop is left. *)
Definition conflictFlag (CIDR : string) (order : sets.RangeOrder)
    (ipset : gset string) : bool :=
  invalidIP (value (detect CIDR order ipset)).

(** A candidate [ipStr] falls inside the network [CIDR] parses to. *)
Definition insideCIDR (CIDR : string) (ipStr : string) : bool :=
  match net.ParseCIDR parseIPv6 strictCIDR CIDR with
  | (_, Some ipnet, _) => net.Contains ipnet (ParseIP ipStr)
  | _ => false
  end.

Definition wellFormedCIDR (CIDR : string) : Prop :=
  snd (net.ParseCIDR parseIPv6 strictCIDR CIDR) = None.

(** The trace of one turn of the loop: the parse, the report of a parse
    error, the report of the first conflict. *)
Definition bodyTrace (CIDR : string) (flag : bool) (ipStr : string)
  : list Event :=
  (EvParseCIDR CIDR
   :: match snd (net.ParseCIDR parseIPv6 strictCIDR CIDR) with
      | Some err => [EvLog (LogParseCIDR err)]
      | None => []
      end
   ++ (if insideCIDR CIDR ipStr && negb flag
       then [EvLog (LogConflict (ParseIP ipStr))]
       else []))%list.

End Probe.

End Main.

Import Main.

(** ** Sample platform instances and hosts *)

Module Sample.

(** An IPv6 parser that accepts no text, and an IPv6 printer. *)
Definition parseIPv6 : string -> net.IP := fun _ => None.
Definition ip6String : list byte -> string :=
  fun l => "[" +:+ net.hexString l +:+ "]".

(** The floating-point product, computed exactly. *)
Definition f64MulDiv (f unit scale : N) : N := (f * unit / scale)%N.

(** The interface address [a.b.c.d/ones]. *)
Definition ifaddr (a b c d : byte) (ones : N) : Addr :=
  IPNetAddr (net.mkIPNet (Some [a; b; c; d]) (net.CIDRMask ones 32)).

(** A host whose only named interface is [kube-ipvs0]. *)
Definition withDummy (addrs : list Addr) : string -> result Interface :=
  fun dev =>
    if String.eqb dev "kube-ipvs0"
    then Ok (mkInterface "kube-ipvs0" (Ok addrs))
    else Err "route ip+net: no such network interface".

Definition noDummy : string -> result Interface :=
  fun _ => Err "route ip+net: no such network interface".

(** Scenario B: 10.96.0.5 and 127.0.0.1 locally, nothing on the dummy
    interface. *)
Definition hostB : Host :=
  mkHost (Ok [ifaddr x0a x60 x00 x05 24; ifaddr x7f x00 x00 x01 8])
    (withDummy []) elements.

(** Scenario A: 10.0.0.5, 127.0.0.1 and 10.96.0.10 locally, 10.96.0.10
    on the dummy interface. *)
Definition hostA : Host :=
  mkHost (Ok [ifaddr x0a x00 x00 x05 24; ifaddr x7f x00 x00 x01 8;
              ifaddr x0a x60 x00 x0a 32])
    (withDummy [ifaddr x0a x60 x00 x0a 32]) elements.

(** Scenario C: no address at all. *)
Definition hostEmpty : Host :=
  mkHost (Ok []) (withDummy []) elements.

(** Scenario D: the dummy interface is absent. *)
Definition hostD : Host :=
  mkHost (Ok [ifaddr x0a x60 x00 x05 24; ifaddr x7f x00 x00 x01 8])
    noDummy elements.

(** Every local address is bound to the dummy interface. *)
Definition hostBound : Host :=
  mkHost (Ok [ifaddr x0a x60 x00 x0a 32; ifaddr x7f x00 x00 x01 8])
    (withDummy [ifaddr x0a x60 x00 x0a 32]) elements.

(** Two candidates inside 10.96.0.0/12. *)
Definition hostTwo : Host :=
  mkHost (Ok [ifaddr x0a x60 x00 x05 24; ifaddr x0a x60 x00 x06 24])
    (withDummy []) elements.

(** The candidate sets of [hostA], of [hostB] and of [hostTwo]. *)
Definition setA : gset string := {["10.0.0.5"]}.
Definition setB : gset string := {["10.96.0.5"]}.
Definition setTwo : gset string := {["10.96.0.6"]} ∪ {["10.96.0.5"]}.

(** The global address 2001:db8::1. *)
Definition global6 : net.IP :=
  Some [x20; x01; x0d; xb8; x00; x00; x00; x00;
        x00; x00; x00; x00; x00; x00; x00; x01].

Definition fetchNodeIPs : string -> Host -> M (result (list net.IP)) :=
  fetchNodeIPs parseIPv6 ip6String true true.

Definition main : list string -> list Host -> M Status :=
  main parseIPv6 ip6String true true f64MulDiv.

End Sample.

(** ** The filter of the specification *)

(** The filter as the specification words it: the collector tracks one
    family, chosen at construction ([trackV6]); an address is excluded
    when it is a loopback address, when it belongs to the other family,
    and, if the tracked family is v6, when it is link-local unicast. *)
Definition specFilter (trackV6 : bool) (ip : net.IP) : bool :=
  if net.IsLoopback ip then false
  else if negb (Bool.eqb trackV6 (IsIPv6 ip)) then false
  else if trackV6 && net.IsLinkLocalUnicast ip then false
  else true.

(** The addresses of a list of [net.Addr] that [AddressSet] looks at. *)
Definition addrIPs (addrs : list Addr) : list net.IP :=
  omap (fun a => match a with
                 | IPAddr ip _ => Some ip
                 | IPNetAddr n => Some (net.ipnet_IP n)
                 | OtherAddr _ _ => None
                 end) addrs.

(** An address source of the host cannot be read. *)
Definition sourceFails (h : Host) : Prop :=
  is_ok (host_InterfaceAddrs h) = false
  \/ match host_InterfaceByName h "kube-ipvs0" with
     | Err _ => True
     | Ok ifi => is_ok (ifi_Addrs ifi) = false
     end.

(** ** Further observations and notions *)

(** The result line of each pass (main.go:32 and main.go:34), as the
    result it reports. *)
Definition resultsLogged (t : list Event) : list (result (list net.IP)) :=
  omap (fun e => match e with
                 | EvLog (LogFetchFailed err) => Some (Err err)
                 | EvLog (LogNodeIPs ips) => Some (Ok ips)
                 | _ => None
                 end) t.

(** The events the loop of [fetchNodeIPs] leaves. *)
Definition isDetection (e : Event) : bool :=
  match e with
  | EvParseCIDR _ | EvLog (LogParseCIDR _) | EvLog (LogConflict _) => true
  | _ => false
  end.

(** A text of decimal digits, and the number it writes. *)
Fixpoint allDigits (s : string) : bool :=
  match s with
  | EmptyString => true
  | String c s' => isDigit c && allDigits s'
  end.

Fixpoint decimalFrom (s : string) (acc : N) : N :=
  match s with
  | EmptyString => acc
  | String c s' => decimalFrom s' (acc * 10 + digitVal c)%N
  end.

Definition decimal (s : string) : N := decimalFrom s 0%N.

(** * Properties *)

(** ** The trace monad *)

Lemma value_bind {A B} (m : M A) (k : A -> M B) :
  value (m ≫= k) = value (k (value m)).
Proof.
  destruct m as [a t]. unfold mbind, M_bind, value. simpl.
  destruct (k a); reflexivity.
Qed.

Lemma trace_bind {A B} (m : M A) (k : A -> M B) :
  trace (m ≫= k) = (trace m ++ trace (k (value m)))%list.
Proof.
  destruct m as [a t]. unfold mbind, M_bind, value, trace. simpl.
  destruct (k a); reflexivity.
Qed.

Lemma value_ret {A} (a : A) : value (mret a) = a.
Proof. reflexivity. Qed.

Lemma trace_ret {A} (a : A) : trace (mret a : M A) = [].
Proof. reflexivity. Qed.

Lemma trace_emit e : trace (emit e) = [e].
Proof. reflexivity. Qed.

Create Rewrite HintDb probe.
#[global] Hint Rewrite @value_bind @trace_bind @value_ret @trace_ret trace_emit
  : probe.

Ltac run := autorewrite with probe; simpl.

(** ** The detection loop *)

Section LoopFacts.

Variable parseIPv6 : string -> net.IP.
Variables strictIP strictCIDR : bool.

Local Abbreviation ParseIP := (Main.ParseIP parseIPv6 strictIP).
Local Abbreviation ParseCIDR := (net.ParseCIDR parseIPv6 strictCIDR).
Local Abbreviation insideCIDR :=
  (Main.insideCIDR parseIPv6 strictIP strictCIDR).
Local Abbreviation loopBody := (Main.loopBody parseIPv6 strictIP strictCIDR).
Local Abbreviation rangeLoop := (Main.rangeLoop parseIPv6 strictIP strictCIDR).
Local Abbreviation detect := (Main.detect parseIPv6 strictIP strictCIDR).
Local Abbreviation conflictFlag :=
  (Main.conflictFlag parseIPv6 strictIP strictCIDR).
Local Abbreviation bodyTrace := (Main.bodyTrace parseIPv6 strictIP strictCIDR).

(** What [ParseCIDR] returns: a network and no error, or an error and
    no network. *)
Lemma ParseCIDR_shape CIDR :
  (exists ip n, ParseCIDR CIDR = (ip, Some n, None))
  \/ (exists e, ParseCIDR CIDR = (None, None, Some e)).
Proof.
  unfold net.ParseCIDR.
  destruct (indexByte "/" CIDR) as [i|]; [|right; eauto].
  destruct (net.parseIPv4 strictCIDR (strTake i CIDR)) as [p|];
    destruct (net.dtoi (strDrop (S i) CIDR)) as [[n j] ok];
    match goal with
    | |- context [if ?c then _ else _] => destruct c
    end; eauto.
Qed.

Lemma malformed_not_inside CIDR s :
  snd (ParseCIDR CIDR) <> None -> insideCIDR CIDR s = false.
Proof.
  intros H. unfold Main.insideCIDR.
  destruct (ParseCIDR_shape CIDR) as [(ip & n & E)|(e & E)];
    rewrite E in *; simpl in *; congruence.
Qed.

Lemma loopBody_value CIDR vars ipStr :
  value (loopBody CIDR vars ipStr)
  = mkLoopVars (ips vars ++ [ParseIP ipStr])
      (invalidIP vars || insideCIDR CIDR ipStr).
Proof.
  unfold Main.loopBody, call_ParseCIDR, Main.insideCIDR.
  run.
  destruct (ParseCIDR CIDR) as [[ip [n|]] [e|]]; run;
    destruct (invalidIP vars); simpl;
    try destruct (net.Contains n _); run;
    rewrite ?orb_false_r; reflexivity.
Qed.

Lemma loopBody_trace CIDR vars ipStr :
  trace (loopBody CIDR vars ipStr) = bodyTrace CIDR (invalidIP vars) ipStr.
Proof.
  unfold Main.loopBody, call_ParseCIDR, Main.bodyTrace,
    Main.insideCIDR.
  run.
  destruct (ParseCIDR CIDR) as [[ip [n|]] [e|]]; run;
    destruct (invalidIP vars); simpl;
    try destruct (net.Contains n _); run; reflexivity.
Qed.

Lemma rangeLoop_ips CIDR l vars :
  ips (value (rangeLoop CIDR l vars)) = (ips vars ++ map ParseIP l)%list.
Proof.
  revert vars. induction l as [|s l IH]; intros vars; simpl.
  - rewrite app_nil_r. reflexivity.
  - run. rewrite IH, loopBody_value. simpl.
    rewrite <- app_assoc. reflexivity.
Qed.

Lemma rangeLoop_invalidIP CIDR l vars :
  invalidIP (value (rangeLoop CIDR l vars))
  = invalidIP vars || existsb (insideCIDR CIDR) l.
Proof.
  revert vars. induction l as [|s l IH]; intros vars; simpl.
  - rewrite orb_false_r. reflexivity.
  - run. rewrite IH, loopBody_value. simpl.
    rewrite orb_assoc. reflexivity.
Qed.

(** The number of [net.ParseCIDR] calls is the number of turns. *)
Lemma rangeLoop_parses CIDR l vars :
  length (filter isParseCIDR (trace (rangeLoop CIDR l vars))) = length l.
Proof.
  revert vars. induction l as [|s l IH]; intros vars; simpl; [reflexivity|].
  run. rewrite filter_app, length_app, IH, loopBody_trace.
  unfold Main.bodyTrace.
  destruct (snd (ParseCIDR CIDR));
    destruct (insideCIDR CIDR s && negb (invalidIP vars)); reflexivity.
Qed.

(** Every turn reports the parse error, if there is one. *)
Lemma rangeLoop_parseErrors CIDR l vars :
  parseErrorsLogged (trace (rangeLoop CIDR l vars))
  = match snd (ParseCIDR CIDR) with
    | Some err => replicate (length l) err
    | None => []
    end.
Proof.
  revert vars. induction l as [|s l IH]; intros vars; simpl.
  - destruct (snd (ParseCIDR CIDR)); reflexivity.
  - run. unfold parseErrorsLogged in *.
    rewrite omap_app, IH, loopBody_trace. unfold Main.bodyTrace.
    destruct (snd (ParseCIDR CIDR));
      destruct (insideCIDR CIDR s && negb (invalidIP vars)); reflexivity.
Qed.

(** Only the first candidate inside the CIDR is reported. *)
Lemma rangeLoop_conflicts CIDR l vars :
  conflictsLogged (trace (rangeLoop CIDR l vars))
  = if invalidIP vars then []
    else match find (insideCIDR CIDR) l with
         | Some ipStr => [ParseIP ipStr]
         | None => []
         end.
Proof.
  revert vars. induction l as [|s l IH]; intros vars; simpl.
  - destruct (invalidIP vars); reflexivity.
  - run. unfold conflictsLogged in *.
    rewrite omap_app, IH, loopBody_trace, loopBody_value.
    unfold Main.bodyTrace. simpl.
    destruct (snd (ParseCIDR CIDR));
      destruct (invalidIP vars); destruct (insideCIDR CIDR s);
      reflexivity.
Qed.

(** The loop itself writes no context line and reads no interface. *)
Lemma rangeLoop_quiet CIDR l vars :
  contextsLogged (trace (rangeLoop CIDR l vars)) = []
  /\ filter isEnumeration (trace (rangeLoop CIDR l vars)) = []
  /\ sleeps (trace (rangeLoop CIDR l vars)) = [].
Proof.
  revert vars. induction l as [|s l IH]; intros vars; simpl; [auto|].
  run. unfold contextsLogged, sleeps in *.
  rewrite !omap_app, filter_app, loopBody_trace.
  destruct (IH (value (loopBody CIDR vars s))) as (-> & -> & ->).
  unfold Main.bodyTrace.
  destruct (snd (ParseCIDR CIDR));
    destruct (insideCIDR CIDR s && negb (invalidIP vars)); auto.
Qed.

Lemma existsb_inside_perm CIDR (l l' : list string) :
  l ≡ₚ l' -> existsb (insideCIDR CIDR) l = existsb (insideCIDR CIDR) l'.
Proof.
  intros P. apply eq_true_iff_eq. rewrite !existsb_exists.
  split; intros (x & Hx & Hf); exists x; split; auto;
    apply list_elem_of_In; apply list_elem_of_In in Hx;
    [rewrite <- P | rewrite P]; exact Hx.
Qed.

(** The flag, for a fair order: some candidate of the set is inside. *)
Lemma conflictFlag_spec CIDR order (ipset : gset string) :
  sets.fair order ->
  conflictFlag CIDR order ipset = true
  <-> exists ipStr, ipStr ∈ ipset /\ insideCIDR CIDR ipStr = true.
Proof.
  intros F. unfold Main.conflictFlag, Main.detect,
    sets.UnsortedList.
  rewrite rangeLoop_invalidIP. simpl. rewrite existsb_exists.
  split; intros (x & Hx & Hf); exists x; split; auto.
  - apply list_elem_of_In in Hx. rewrite (F ipset) in Hx.
    apply elem_of_elements in Hx. exact Hx.
  - apply list_elem_of_In. rewrite (F ipset).
    apply elem_of_elements. exact Hx.
Qed.

End LoopFacts.

(** ** Sets of addresses *)

Lemma Insert_elem (s : gset string) (item x : string) :
  x ∈ sets.Insert s item <-> x = item \/ x ∈ s.
Proof. unfold sets.Insert. set_solver. Qed.

Lemma Has_true (s : gset string) (item : string) :
  sets.Has s item = true <-> item ∈ s.
Proof. unfold sets.Has. apply bool_decide_eq_true. Qed.

(** [Difference] is the set difference. *)
Lemma Difference_elem (s1 s2 : gset string) (x : string) :
  x ∈ sets.Difference s1 s2 <-> x ∈ s1 /\ x ∉ s2.
Proof.
  unfold sets.Difference.
  apply (set_fold_ind_L
           (fun (r : gset string) (X : gset string) => x ∈ r <-> x ∈ X /\ x ∉ s2)).
  - unfold sets.NewString. set_solver.
  - intros y X r Hy IH.
    destruct (sets.Has s2 y) eqn:E.
    + apply Has_true in E. rewrite IH. set_solver.
    + assert (y ∉ s2) by (intros Hin; apply Has_true in Hin; congruence).
      rewrite Insert_elem, IH. set_solver.
Qed.

Lemma Difference_eq (s1 s2 : gset string) : sets.Difference s1 s2 = s1 ∖ s2.
Proof.
  apply set_eq. intros x. rewrite Difference_elem. set_solver.
Qed.

Section AddressSetFacts.

Variable ip6String : list byte -> string.

Local Abbreviation IPString := (net.IP_String ip6String).
Local Abbreviation AddressSetFrom := (Main.AddressSetFrom ip6String).
Local Abbreviation AddressSet := (Main.AddressSet ip6String).

(** The set holds the text of the addresses the filter lets through. *)
Lemma AddressSetFrom_elem isValid addrs (acc : gset string) (x : string) :
  x ∈ AddressSetFrom isValid addrs acc
  <-> x ∈ acc
      \/ exists ip, ip ∈ addrIPs addrs /\ isValid ip = true /\ x = IPString ip.
Proof.
  revert acc. induction addrs as [|a addrs IH]; intros acc; simpl.
  - split; [auto|]. intros [H|(ip & H & _)]; [exact H|].
    apply elem_of_nil in H. destruct H.
  - unfold addrIPs in *. simpl.
    destruct a as [ip zone|n|network text]; simpl.
    + destruct (isValid ip) eqn:E; rewrite IH, ?Insert_elem.
      * split.
        -- intros [[->|H]|(ip' & H & V & ->)]; eauto.
           ++ right. exists ip. split; [left|auto].
           ++ right. exists ip'. split; [right; exact H|auto].
        -- intros [H|(ip' & H & V & ->)]; [auto|].
           apply elem_of_cons in H as [->|H]; eauto.
      * split.
        -- intros [H|(ip' & H & V & ->)]; eauto.
           right. exists ip'. split; [right; exact H|auto].
        -- intros [H|(ip' & H & V & ->)]; [auto|].
           apply elem_of_cons in H as [->|H]; [congruence|eauto].
    + destruct (isValid (net.ipnet_IP n)) eqn:E; rewrite IH, ?Insert_elem.
      * split.
        -- intros [[->|H]|(ip' & H & V & ->)]; eauto.
           ++ right. exists (net.ipnet_IP n). split; [left|auto].
           ++ right. exists ip'. split; [right; exact H|auto].
        -- intros [H|(ip' & H & V & ->)]; [auto|].
           apply elem_of_cons in H as [->|H]; eauto.
      * split.
        -- intros [H|(ip' & H & V & ->)]; eauto.
           right. exists ip'. split; [right; exact H|auto].
        -- intros [H|(ip' & H & V & ->)]; [auto|].
           apply elem_of_cons in H as [->|H]; [congruence|eauto].
    + apply IH.
Qed.

Lemma AddressSet_elem isValid addrs (x : string) :
  x ∈ AddressSet isValid addrs
  <-> exists ip, ip ∈ addrIPs addrs /\ isValid ip = true /\ x = IPString ip.
Proof.
  unfold Main.AddressSet. rewrite AddressSetFrom_elem.
  unfold sets.NewString. set_solver.
Qed.

End AddressSetFacts.

(** ** Dotted-decimal text: printing, then parsing *)

Section CodecFacts.

Variable parseIPv6 : string -> net.IP.
Variable ip6String : list byte -> string.
Variable strict : bool.

Local Abbreviation IPString := (net.IP_String ip6String).
Local Abbreviation ParseIP := (Main.ParseIP parseIPv6 strict).

Lemma scan_octet a r whole :
  net.ParseIPScan parseIPv6 strict (net.ubtoa a +:+ String "."%char r) whole
  = net.parseIPv4 strict whole.
Proof. destruct a; reflexivity. Qed.

Lemma octet_first fuel a r p :
  net.parseIPv4From strict (S fuel) 0 (net.ubtoa a +:+ String "."%char r) p
  = net.parseIPv4From strict fuel 1 (String "."%char r) (p ++ [a]).
Proof. destruct strict, a; reflexivity. Qed.

Lemma octet_next fuel i a r p :
  net.parseIPv4From strict (S fuel) (S i)
    (String "."%char (net.ubtoa a +:+ String "."%char r)) p
  = net.parseIPv4From strict fuel (S (S i)) (String "."%char r) (p ++ [a]).
Proof. destruct strict, a; reflexivity. Qed.

Lemma octet_last fuel i a p :
  net.parseIPv4From strict (S fuel) (S i) (String "."%char (net.ubtoa a)) p
  = net.parseIPv4From strict fuel (S (S i)) "" (p ++ [a]).
Proof. destruct strict, a; reflexivity. Qed.

Lemma dotted_unfold a b c d :
  net.dotted a b c d
  = net.ubtoa a +:+ String "."%char
      (net.ubtoa b +:+ String "."%char
         (net.ubtoa c +:+ String "."%char (net.ubtoa d))).
Proof. reflexivity. Qed.

(** Parsing the dotted form of four bytes gives these four bytes back. *)
Lemma ParseIP_dotted a b c d :
  ParseIP (net.dotted a b c d) = net.IPv4 a b c d.
Proof.
  unfold Main.ParseIP, net.ParseIP.
  rewrite dotted_unfold, scan_octet. unfold net.parseIPv4, net.IPv4len.
  rewrite octet_first, octet_next, octet_next, octet_last.
  reflexivity.
Qed.

Lemma ParseIP_nil : ParseIP "<nil>" = None.
Proof. reflexivity. Qed.

Lemma To4_IPv4 a b c d : net.To4 (net.IPv4 a b c d) = Some [a; b; c; d].
Proof. reflexivity. Qed.

(** [To4] answers [nil] or four bytes. *)
Lemma To4_four ip l :
  net.To4 ip = Some l -> exists a b c d, l = [a; b; c; d].
Proof.
  destruct ip as [p|]; [|discriminate]. unfold net.To4.
  destruct (Nat.eqb (length p) net.IPv4len) eqn:E4.
  - intros [= <-]. apply Nat.eqb_eq in E4.
    destruct p as [|a [|b [|c [|d [|? ?]]]]]; try discriminate. eauto.
  - destruct (Nat.eqb (length p) net.IPv6len) eqn:E6; [|discriminate].
    apply Nat.eqb_eq in E6.
    do 16 (destruct p as [|? p]; [discriminate|]).
    destruct p; [|discriminate]. simpl.
    match goal with
    | |- (if ?c then _ else _) = _ -> _ => destruct c
    end; [|discriminate].
    intros [= <-]. eauto.
Qed.

Lemma To4_len ip l : net.To4 ip = Some l -> Nat.eqb (net.len ip) 0 = false.
Proof.
  destruct ip as [p|]; [|discriminate]. unfold net.To4, net.len.
  destruct p; [discriminate|reflexivity].
Qed.

(** The text of an address that has a 4-byte form is dotted decimal. *)
Lemma String_To4 ip a b c d :
  net.To4 ip = Some [a; b; c; d] -> IPString ip = net.dotted a b c d.
Proof.
  intros H. unfold net.IP_String. rewrite (To4_len _ _ H), H. reflexivity.
Qed.

(** What the filter of the probe lets through: [nil], and the addresses
    with a 4-byte form that does not start with 127. *)
Lemma isValidForSet_cases ip :
  isValidForSet ip = true
  <-> ip = None
      \/ exists a b c d, net.To4 ip = Some [a; b; c; d] /\ a <> x7f.
Proof.
  unfold isValidForSet, IsIPv6, net.IsLoopback.
  destruct ip as [p|].
  - destruct (net.To4 (Some p)) as [l|] eqn:E; simpl.
    + destruct (To4_four _ _ E) as (a & b & c & d & ->). simpl.
      destruct (Byte.eqb a x7f) eqn:Ea.
      * split; [discriminate|].
        intros [?|(a' & b' & c' & d' & [= -> -> -> ->] & N)];
          [discriminate|]. apply byte_dec_bl in Ea. contradiction.
      * split; [|reflexivity]. intros _. right. exists a, b, c, d.
        split; [reflexivity|]. intros ->.
        now rewrite (byte_dec_lb eq_refl) in Ea.
    + split; [discriminate|]. intros [?|(a & b & c & d & ? & _)]; discriminate.
  - simpl. split; auto.
Qed.

(** Printing an address the filter lets through and parsing the text
    again gives an address that is neither loopback nor IPv6. *)
Lemma reparse_valid ip :
  isValidForSet ip = true ->
  net.IsLoopback (ParseIP (IPString ip)) = false
  /\ IsIPv6 (ParseIP (IPString ip)) = false
  /\ net.To4 (ParseIP (IPString ip)) = net.To4 ip.
Proof.
  intros V. apply isValidForSet_cases in V as [->|(a & b & c & d & E & N)].
  - split; [|split]; reflexivity.
  - rewrite (String_To4 _ _ _ _ _ E), ParseIP_dotted, E.
    split; [|split]; try reflexivity.
    unfold net.IsLoopback. rewrite To4_IPv4. simpl.
    destruct (Byte.eqb a x7f) eqn:Ea; [|reflexivity].
    apply byte_dec_bl in Ea. contradiction.
Qed.

(** Two addresses the filter lets through that parse to the same
    address have the same text. *)
Lemma valid_text_inj ip ip' :
  isValidForSet ip = true ->
  isValidForSet ip' = true ->
  ParseIP (IPString ip) = ParseIP (IPString ip') ->
  IPString ip = IPString ip'.
Proof.
  intros V V' H.
  apply isValidForSet_cases in V as [->|(a & b & c & d & E & _)];
    apply isValidForSet_cases in V' as [->|(a' & b' & c' & d' & E' & _)].
  - reflexivity.
  - rewrite (String_To4 _ _ _ _ _ E'), ParseIP_dotted in H. discriminate H.
  - rewrite (String_To4 _ _ _ _ _ E), ParseIP_dotted in H. discriminate H.
  - rewrite (String_To4 _ _ _ _ _ E), (String_To4 _ _ _ _ _ E') in *.
    rewrite !ParseIP_dotted in H.
    injection H as -> -> -> ->. reflexivity.
Qed.

End CodecFacts.

(** ** One pass *)

Section PassFacts.

Variable parseIPv6 : string -> net.IP.
Variable ip6String : list byte -> string.
Variables strictIP strictCIDR : bool.

Local Abbreviation ParseIP := (Main.ParseIP parseIPv6 strictIP).
Local Abbreviation ParseCIDR := (net.ParseCIDR parseIPv6 strictCIDR).
Local Abbreviation insideCIDR :=
  (Main.insideCIDR parseIPv6 strictIP strictCIDR).
Local Abbreviation detect := (Main.detect parseIPv6 strictIP strictCIDR).
Local Abbreviation conflictFlag :=
  (Main.conflictFlag parseIPv6 strictIP strictCIDR).
Local Abbreviation fetchNodeIPs :=
  (Main.fetchNodeIPs parseIPv6 ip6String strictIP strictCIDR).
Local Abbreviation collect := (Main.collect ip6String).
Local Abbreviation getAllLocalAddresses :=
  (Main.getAllLocalAddresses ip6String).
Local Abbreviation bindedIPs := (Main.bindedIPs ip6String).
Local Abbreviation iteration :=
  (Main.iteration parseIPv6 ip6String strictIP strictCIDR).
Local Abbreviation loop := (Main.loop parseIPv6 ip6String strictIP strictCIDR).

Lemma getAllLocalAddresses_trace h :
  trace (getAllLocalAddresses h) = [EvInterfaceAddrs].
Proof.
  unfold Main.getAllLocalAddresses. run.
  destruct (host_InterfaceAddrs h); reflexivity.
Qed.

Lemma bindedIPs_trace h :
  forallb isEnumeration (trace (bindedIPs h)) = true
  /\ filter isParseCIDR (trace (bindedIPs h)) = []
  /\ (forall B (f : Event -> option B),
        (forall e, isEnumeration e = true -> f e = None) ->
        omap f (trace (bindedIPs h)) = []).
Proof.
  unfold Main.bindedIPs, GetLocalAddresses. run.
  destruct (host_InterfaceByName h "kube-ipvs0") as [ifi|e]; run.
  - destruct (ifi_Addrs ifi); simpl; repeat split; auto;
      intros B f Hf; simpl; rewrite !Hf; reflexivity.
  - repeat split; auto. intros B f Hf; simpl; rewrite !Hf; reflexivity.
Qed.

(** The two address sources answer exactly when [collect] does. *)
Lemma sourceFails_collect h :
  sourceFails h <-> exists err, collect h = Err err.
Proof.
  unfold sourceFails, Main.collect, Main.getAllLocalAddresses,
    Main.bindedIPs, GetLocalAddresses. run.
  destruct (host_InterfaceAddrs h) as [addrs|e]; run.
  - destruct (host_InterfaceByName h "kube-ipvs0") as [ifi|e]; run.
    + destruct (ifi_Addrs ifi) as [addrs'|e]; simpl.
      * split; [intros [?|?]; discriminate|intros (? & ?); discriminate].
      * split; eauto.
    + split; eauto.
  - split; eauto.
Qed.

(** A pass whose sources fail: the error is returned after the
    enumeration calls, and nothing else happens. *)
Lemma fetchNodeIPs_err CIDR h err :
  collect h = Err err ->
  value (fetchNodeIPs CIDR h) = Err err
  /\ forallb isEnumeration (trace (fetchNodeIPs CIDR h)) = true.
Proof.
  unfold Main.collect, Main.fetchNodeIPs. run.
  rewrite getAllLocalAddresses_trace.
  destruct (value (getAllLocalAddresses h)) as [node|e]; run.
  - destruct (bindedIPs_trace h) as (Hb & _).
    destruct (value (bindedIPs h)) as [bind|e']; run; [discriminate|].
    intros [= <-]. split; [reflexivity|].
    rewrite forallb_app, Hb. reflexivity.
  - intros [= <-]. auto.
Qed.

(** A pass whose sources answer: the list built by the loop is
    returned, and the context line is written when the flag is set. *)
Lemma fetchNodeIPs_ok CIDR h node bind ipset :
  collect h = Ok (node, bind, ipset) ->
  value (fetchNodeIPs CIDR h) = Ok (map ParseIP (host_order h ipset))
  /\ trace (fetchNodeIPs CIDR h)
     = (trace (getAllLocalAddresses h) ++ trace (bindedIPs h)
        ++ trace (detect CIDR (host_order h) ipset)
        ++ (if conflictFlag CIDR (host_order h) ipset
            then [EvLog (LogContext node bind
                           (map ParseIP (host_order h ipset)))]
            else []))%list.
Proof.
  unfold Main.collect, Main.fetchNodeIPs,
    Main.conflictFlag. run.
  destruct (value (getAllLocalAddresses h)) as [node'|e]; run; [|discriminate].
  destruct (value (bindedIPs h)) as [bind'|e']; run; [|discriminate].
  intros [= <- <- <-].
  assert (Hips : ips (value (detect CIDR (host_order h)
                               (sets.Difference node' bind')))
                 = map ParseIP (host_order h (sets.Difference node' bind'))).
  { unfold Main.detect, sets.UnsortedList.
    rewrite rangeLoop_ips. reflexivity. }
  rewrite Hips.
  destruct (invalidIP (value (detect CIDR (host_order h)
                                (sets.Difference node' bind'))));
    run; rewrite ?app_nil_r; split; reflexivity.
Qed.

(** What a pass whose sources answer shows to an observer that ignores
    the enumeration calls. *)
Lemma fetchNodeIPs_observe CIDR h node bind ipset B (f : Event -> option B) :
  collect h = Ok (node, bind, ipset) ->
  (forall e, isEnumeration e = true -> f e = None) ->
  omap f (trace (fetchNodeIPs CIDR h))
  = (omap f (trace (detect CIDR (host_order h) ipset))
     ++ (if conflictFlag CIDR (host_order h) ipset
         then omap f [EvLog (LogContext node bind
                               (map ParseIP (host_order h ipset)))]
         else []))%list.
Proof.
  intros Hc Hf. destruct (fetchNodeIPs_ok CIDR h _ _ _ Hc) as (_ & ->).
  rewrite getAllLocalAddresses_trace, !omap_app.
  destruct (bindedIPs_trace h) as (_ & _ & ->); [|exact Hf].
  simpl. rewrite Hf by reflexivity.
  destruct (conflictFlag CIDR (host_order h) ipset); reflexivity.
Qed.

Lemma fetchNodeIPs_parses CIDR h node bind ipset :
  collect h = Ok (node, bind, ipset) ->
  length (filter isParseCIDR (trace (fetchNodeIPs CIDR h)))
  = length (host_order h ipset).
Proof.
  intros Hc. destruct (fetchNodeIPs_ok CIDR h _ _ _ Hc) as (_ & ->).
  rewrite getAllLocalAddresses_trace, !filter_app, !length_app.
  destruct (bindedIPs_trace h) as (_ & -> & _).
  unfold Main.detect, sets.UnsortedList. rewrite rangeLoop_parses.
  destruct (conflictFlag CIDR (host_order h) ipset); simpl; lia.
Qed.

Lemma fair_length order (s : gset string) :
  sets.fair order -> length (order s) = size s.
Proof. intros F. rewrite (F s). reflexivity. Qed.

Lemma fair_elem order (s : gset string) x :
  sets.fair order -> x ∈ order s <-> x ∈ s.
Proof. intros F. rewrite (F s). apply elem_of_elements. Qed.

(** The sets of a pass are built by [AddressSet] with the filter. *)
Lemma collect_ok_inv h node bind ipset :
  collect h = Ok (node, bind, ipset) ->
  exists allLocal ifi virtualInterface,
    host_InterfaceAddrs h = Ok allLocal
    /\ host_InterfaceByName h "kube-ipvs0" = Ok ifi
    /\ ifi_Addrs ifi = Ok virtualInterface
    /\ node = AddressSet ip6String isValidForSet allLocal
    /\ bind = AddressSet ip6String isValidForSet virtualInterface
    /\ ipset = sets.Difference node bind.
Proof.
  unfold Main.collect, Main.getAllLocalAddresses,
    Main.bindedIPs, GetLocalAddresses. run.
  destruct (host_InterfaceAddrs h) as [allLocal|e] eqn:E1; run;
    [|discriminate].
  destruct (host_InterfaceByName h "kube-ipvs0") as [ifi|e] eqn:E2; run;
    [|discriminate].
  destruct (ifi_Addrs ifi) as [virtualInterface|e] eqn:E3; run;
    [|discriminate].
  intros [= <- <- <-]. exists allLocal, ifi, virtualInterface.
  repeat split; auto.
Qed.

(** A pass that returns a list is a pass whose sources answered. *)
Lemma fetchNodeIPs_value_ok CIDR h ips :
  value (fetchNodeIPs CIDR h) = Ok ips ->
  exists node bind ipset,
    collect h = Ok (node, bind, ipset)
    /\ ips = map ParseIP (host_order h ipset).
Proof.
  intros Hv. destruct (collect h) as [[[node bind] ipset]|e] eqn:Hc.
  - destruct (fetchNodeIPs_ok CIDR h _ _ _ Hc) as (Hv' & _).
    rewrite Hv' in Hv. injection Hv as <-. eauto.
  - destruct (fetchNodeIPs_err CIDR h _ Hc) as (Hv' & _). congruence.
Qed.

Lemma iteration_trace duration CIDR h :
  trace (iteration duration CIDR h)
  = (trace (fetchNodeIPs CIDR h)
     ++ [EvLog (match value (fetchNodeIPs CIDR h) with
                | Err err => LogFetchFailed err
                | Ok ips => LogNodeIPs ips
                end);
         EvSleep duration])%list.
Proof.
  unfold Main.iteration. run.
  destruct (value (fetchNodeIPs CIDR h)); reflexivity.
Qed.

Lemma loop_app duration CIDR hosts hosts' :
  trace (loop duration CIDR (hosts ++ hosts'))
  = (trace (loop duration CIDR hosts)
     ++ trace (loop duration CIDR hosts'))%list.
Proof.
  induction hosts as [|h hosts IH]; simpl; [reflexivity|].
  run. rewrite IH, app_assoc. reflexivity.
Qed.

Lemma loop_cons duration CIDR h hosts :
  trace (loop duration CIDR (h :: hosts))
  = (trace (iteration duration CIDR h)
     ++ trace (loop duration CIDR hosts))%list.
Proof. simpl. run. reflexivity. Qed.

End PassFacts.

(** ** The scenarios of the specification *)

Example scenario_A :
  collect Sample.ip6String Sample.hostA
  = Ok ({["10.96.0.10"]} ∪ Sample.setA, {["10.96.0.10"]}, Sample.setA)
  /\ Sample.fetchNodeIPs "10.96.0.0/12" Sample.hostA
     = (Ok [net.IPv4 x0a x00 x00 x05],
        [EvInterfaceAddrs; EvInterfaceByName "kube-ipvs0";
         EvAddrs "kube-ipvs0"; EvParseCIDR "10.96.0.0/12"]).
Proof. split; vm_compute; reflexivity. Qed.

Example scenario_C :
  Sample.fetchNodeIPs "10.96.0.0/12" Sample.hostEmpty
  = (Ok [],
     [EvInterfaceAddrs; EvInterfaceByName "kube-ipvs0"; EvAddrs "kube-ipvs0"]).
Proof. vm_compute. reflexivity. Qed.

Example scenario_D :
  Sample.main ["probe"; "100"; "10.96.0.0/12"] [Sample.hostD]
  = (Looping,
     [EvParseDuration "100ms"; EvInterfaceAddrs;
      EvInterfaceByName "kube-ipvs0";
      EvLog (LogFetchFailed
               ("Could not get interface kube-ipvs0: "
                +:+ "route ip+net: no such network interface"));
      EvSleep 100000000%Z]).
Proof. vm_compute. reflexivity. Qed.

Example scenario_E :
  Sample.main ["probe"; "100"; "10.96.0.0"] [Sample.hostA]
  = (Looping,
     [EvParseDuration "100ms"; EvInterfaceAddrs;
      EvInterfaceByName "kube-ipvs0"; EvAddrs "kube-ipvs0";
      EvParseCIDR "10.96.0.0";
      EvLog (LogParseCIDR "invalid CIDR address: 10.96.0.0");
      EvLog (LogNodeIPs [net.IPv4 x0a x00 x00 x05]);
      EvSleep 100000000%Z]).
Proof. vm_compute. reflexivity. Qed.

Example ParseDuration_samples :
  time.ParseDuration Sample.f64MulDiv "2.5ms" = Ok 2500000%Z
  /\ time.ParseDuration Sample.f64MulDiv "-100ms" = Ok (-100000000)%Z
  /\ time.ParseDuration Sample.f64MulDiv "1h2m3.5s" = Ok 3723500000000%Z
  /\ time.ParseDuration Sample.f64MulDiv "1e3ms"
     = Err "time: unknown unit e in duration 1e3ms"
  /\ time.ParseDuration Sample.f64MulDiv "ms"
     = Err "time: invalid duration ms".
Proof. repeat split; vm_compute; reflexivity. Qed.

Example ParseCIDR_samples :
  net.ParseCIDR Sample.parseIPv6 true "10.96.0.5/12"
  = (net.IPv4 x0a x60 x00 x05,
     Some (net.mkIPNet (Some [x0a; x60; x00; x00])
             (Some [xff; xf0; x00; x00])),
     None)
  /\ snd (net.ParseCIDR Sample.parseIPv6 true "10.96.0.0/33")
     = Some "invalid CIDR address: 10.96.0.0/33"
  /\ net.ParseIP Sample.parseIPv6 true "10.096.0.5" = None
  /\ net.ParseIP Sample.parseIPv6 false "10.096.0.5"
     = net.IPv4 x0a x60 x00 x05.
Proof. repeat split; vm_compute; reflexivity. Qed.

(** * The claims of the specification *)

Section Claims.

Variable parseIPv6 : string -> net.IP.
Variable ip6String : list byte -> string.
Variables strictIP strictCIDR : bool.
Variable f64MulDiv : N -> N -> N -> N.

Local Abbreviation ParseIP := (Main.ParseIP parseIPv6 strictIP).
Local Abbreviation ParseCIDR := (net.ParseCIDR parseIPv6 strictCIDR).
Local Abbreviation wellFormedCIDR := (Main.wellFormedCIDR parseIPv6 strictCIDR).
Local Abbreviation insideCIDR :=
  (Main.insideCIDR parseIPv6 strictIP strictCIDR).
Local Abbreviation detect := (Main.detect parseIPv6 strictIP strictCIDR).
Local Abbreviation conflictFlag :=
  (Main.conflictFlag parseIPv6 strictIP strictCIDR).
Local Abbreviation fetchNodeIPs :=
  (Main.fetchNodeIPs parseIPv6 ip6String strictIP strictCIDR).
Local Abbreviation collect := (Main.collect ip6String).
Local Abbreviation AddressSet := (Main.AddressSet ip6String).
Local Abbreviation loop := (Main.loop parseIPv6 ip6String strictIP strictCIDR).
Local Abbreviation startup := (Main.startup f64MulDiv).
Local Abbreviation main :=
  (Main.main parseIPv6 ip6String strictIP strictCIDR f64MulDiv).
Local Abbreviation ParseDuration := (time.ParseDuration f64MulDiv).

(** C1.  For every candidate address set and every well-formed CIDR, the
    conflict flag is true if and only if at least one candidate address
    falls inside the CIDR, and every candidate address is collected into
    the returned list whatever the flag (the enumeration does not stop at
    the first conflict); the context line is logged exactly when the flag
    is set.  In particular, with 10.96.0.5 and 127.0.0.1 as local
    addresses, nothing bound to the virtual interface and the CIDR
    10.96.0.0/12, the node-IP set is {10.96.0.5} and the flag is true. *)
Theorem C1_conflict_iff_candidate_inside :
  (forall CIDR h node bind ipset,
      sets.fair (host_order h) ->
      wellFormedCIDR CIDR ->
      collect h = Ok (node, bind, ipset) ->
      exists ipnet,
        snd (fst (ParseCIDR CIDR)) = Some ipnet
        /\ (conflictFlag CIDR (host_order h) ipset = true
            <-> exists ipStr,
                ipStr ∈ ipset /\ net.Contains ipnet (ParseIP ipStr) = true)
        /\ value (fetchNodeIPs CIDR h) = Ok (map ParseIP (host_order h ipset))
        /\ map ParseIP (host_order h ipset) ≡ₚ map ParseIP (elements ipset)
        /\ contextsLogged (trace (fetchNodeIPs CIDR h))
           = if conflictFlag CIDR (host_order h) ipset
             then [map ParseIP (host_order h ipset)]
             else [])
  /\ collect Sample.hostB = Ok ({["10.96.0.5"]}, ∅, {["10.96.0.5"]})
  /\ value (fetchNodeIPs "10.96.0.0/12" Sample.hostB)
     = Ok [net.IPv4 x0a x60 x00 x05]
  /\ conflictFlag "10.96.0.0/12" (host_order Sample.hostB) {["10.96.0.5"]}
     = true.
Proof.
  split; [|split; [|split]].
  - intros CIDR h node bind ipset F W Hc.
    unfold Main.wellFormedCIDR in W.
    destruct (ParseCIDR_shape parseIPv6 strictCIDR CIDR)
      as [(ip & n & E)|(e & E)]; [|rewrite E in W; discriminate].
    exists n. rewrite E. simpl. split; [reflexivity|].
    destruct (fetchNodeIPs_ok parseIPv6 ip6String strictIP strictCIDR
                CIDR h _ _ _ Hc) as (Hv & _).
    split; [|split; [exact Hv|split]].
    + rewrite (conflictFlag_spec parseIPv6 strictIP strictCIDR CIDR _ ipset F).
      unfold Main.insideCIDR. rewrite E. reflexivity.
    + apply Permutation_map. apply F.
    + unfold contextsLogged.
      rewrite (fetchNodeIPs_observe parseIPv6 ip6String strictIP strictCIDR
                 CIDR h _ _ _ _ _ Hc).
      * destruct (rangeLoop_quiet parseIPv6 strictIP strictCIDR CIDR
                    (host_order h ipset) (mkLoopVars [] false)) as (Hq & _).
        unfold Main.detect, sets.UnsortedList,
          contextsLogged in *.
        rewrite Hq. simpl.
        destruct (conflictFlag CIDR (host_order h) ipset); reflexivity.
      * intros [] He; try discriminate; reflexivity.
  - vm_compute. reflexivity.
  - destruct strictIP, strictCIDR; vm_compute; reflexivity.
  - destruct strictIP, strictCIDR; vm_compute; reflexivity.
Qed.

(** C2.  The candidate set, the difference of the set of all local
    addresses and the set bound to the virtual interface, contains no
    address of the virtual-interface set, and each of its addresses is in
    the set of all local addresses.  On a host, with the two sets built
    from what [net.InterfaceAddrs] and the addresses of [kube-ipvs0]
    answer: the pass returns the parsed members of the difference, which
    are the local addresses not bound to the interface, and no address
    bound to the interface is among the returned ones. *)
Theorem C2_difference_disjoint_subset :
  (forall allLocal virtualInterface ipStr,
      ipStr ∈ sets.Difference (AddressSet isValidForSet allLocal)
                (AddressSet isValidForSet virtualInterface) ->
      (ipStr ∉ AddressSet isValidForSet virtualInterface)
      /\ ipStr ∈ AddressSet isValidForSet allLocal)
  /\ (forall CIDR h allLocal ifi virtualInterface node bind,
         sets.fair (host_order h) ->
         host_InterfaceAddrs h = Ok allLocal ->
         host_InterfaceByName h "kube-ipvs0" = Ok ifi ->
         ifi_Addrs ifi = Ok virtualInterface ->
         node = AddressSet isValidForSet allLocal ->
         bind = AddressSet isValidForSet virtualInterface ->
         collect h = Ok (node, bind, sets.Difference node bind)
         /\ sets.Difference node bind ## bind
         /\ sets.Difference node bind ⊆ node
         /\ value (fetchNodeIPs CIDR h)
            = Ok (map ParseIP (host_order h (sets.Difference node bind)))
         /\ (forall ipStr,
                ipStr ∈ host_order h (sets.Difference node bind)
                <-> ipStr ∈ node /\ ipStr ∉ bind)
         /\ (forall ipStr,
                ipStr ∈ bind ->
                ParseIP ipStr
                ∉ map ParseIP (host_order h (sets.Difference node bind)))
         /\ (forall ip,
                ip ∈ map ParseIP (host_order h (sets.Difference node bind)) ->
                exists ipStr,
                  ip = ParseIP ipStr /\ ipStr ∈ node /\ ipStr ∉ bind)).
Proof.
  split.
  - intros allLocal virtualInterface ipStr H.
    apply Difference_elem in H. tauto.
  - intros CIDR h allLocal ifi virtualInterface node bind F H1 H2 H3 Hn Hb.
    assert (Hc : collect h = Ok (node, bind, sets.Difference node bind)).
    { unfold Main.collect, Main.getAllLocalAddresses, Main.bindedIPs,
        Main.GetLocalAddresses.
      rewrite H1, H2, H3, Hn, Hb. reflexivity. }
    assert (Hmem : forall ipStr,
               ipStr ∈ host_order h (sets.Difference node bind)
               <-> ipStr ∈ node /\ ipStr ∉ bind).
    { intros s. rewrite (fair_elem _ _ _ F). apply Difference_elem. }
    destruct (fetchNodeIPs_ok parseIPv6 ip6String strictIP strictCIDR
                CIDR h _ _ _ Hc) as (Hv & _).
    split; [exact Hc|].
    split; [intros s Hs Hs'; apply Difference_elem in Hs as (_ & Hs);
            exact (Hs Hs')|].
    split; [intros s Hs; apply Difference_elem in Hs as (Hs & _); exact Hs|].
    split; [exact Hv|]. split; [exact Hmem|]. split.
    + intros s Hs Hin.
      apply list_elem_of_fmap in Hin as (s' & Heq & Hs').
      apply Hmem in Hs' as (Hs'n & Hs'b).
      assert (E : s = s').
      { rewrite Hb in Hs. rewrite Hn in Hs'n.
        apply AddressSet_elem in Hs as (ip & _ & V & ->).
        apply AddressSet_elem in Hs'n as (ip' & _ & V' & ->).
        apply (valid_text_inj parseIPv6 ip6String strictIP); assumption. }
      subst s'. exact (Hs'b Hs).
    + intros ip Hip. apply list_elem_of_fmap in Hip as (s & -> & Hs).
      exists s. split; [reflexivity|]. apply Hmem, Hs.
Qed.

(** C3 (as amended).  The filter of the collector excludes an address
    exactly when it is a loopback address or an IPv6 address: it is the
    filter of the specification for the tracked family v4, the only family
    the collector tracks (there is no choice of family and no link-local
    rule).  Consequently no loopback address and no IPv6 address appears
    in the collector's output: every text in an address set prints an
    address that is neither, the text of a 127.x.y.z address is in no
    address set, and every address a pass returns is neither. *)
Theorem C3_filter_excludes_loopback_and_v6 :
  (forall ip,
      isValidForSet ip = false
      <-> net.IsLoopback ip = true \/ IsIPv6 ip = true)
  /\ (forall ip, isValidForSet ip = specFilter false ip)
  /\ (forall addrs ipStr,
         ipStr ∈ AddressSet isValidForSet addrs ->
         exists ip,
           ip ∈ addrIPs addrs
           /\ ipStr = net.IP_String ip6String ip
           /\ net.IsLoopback ip = false /\ IsIPv6 ip = false)
  /\ (forall addrs ip ip4,
         net.To4 ip = Some ip4 ->
         net.IsLoopback ip = true ->
         net.IP_String ip6String ip ∉ AddressSet isValidForSet addrs)
  /\ (forall CIDR h ips ip,
         sets.fair (host_order h) ->
         value (fetchNodeIPs CIDR h) = Ok ips ->
         ip ∈ ips ->
         net.IsLoopback ip = false /\ IsIPv6 ip = false).
Proof.
  assert (Hiff : forall ip,
             isValidForSet ip = true
             <-> net.IsLoopback ip = false /\ IsIPv6 ip = false).
  { intros ip. unfold isValidForSet.
    destruct (IsIPv6 ip), (net.IsLoopback ip); intuition congruence. }
  split; [|split; [|split; [|split]]].
  - intros ip. unfold isValidForSet.
    destruct (IsIPv6 ip), (net.IsLoopback ip); intuition congruence.
  - intros ip. unfold isValidForSet, specFilter.
    destruct (IsIPv6 ip), (net.IsLoopback ip); reflexivity.
  - intros addrs ipStr H. apply AddressSet_elem in H as (ip & Hin & V & ->).
    exists ip. apply Hiff in V. tauto.
  - intros addrs ip ip4 E L Hin.
    destruct (To4_four _ _ E) as (a & b & c & d & ->).
    unfold net.IsLoopback in L. rewrite E in L. simpl in L.
    apply byte_dec_bl in L. subst a.
    apply AddressSet_elem in Hin as (ip0 & _ & V & Heq).
    rewrite (String_To4 _ _ _ _ _ _ E) in Heq.
    apply (f_equal ParseIP) in Heq.
    rewrite (ParseIP_dotted parseIPv6 strictIP) in Heq.
    apply isValidForSet_cases in V as [->|(a0 & b0 & c0 & d0 & E0 & N0)].
    + discriminate Heq.
    + rewrite (String_To4 _ _ _ _ _ _ E0) in Heq.
      rewrite (ParseIP_dotted parseIPv6 strictIP) in Heq.
      injection Heq as <- _ _ _. contradiction.
  - intros CIDR h ips ip F Hv Hip.
    apply fetchNodeIPs_value_ok in Hv as (node & bind & ipset & Hc & ->).
    apply list_elem_of_fmap in Hip as (s & -> & Hs).
    apply (fair_elem _ _ _ F) in Hs.
    apply collect_ok_inv in Hc
      as (allLocal & ifi & virt & _ & _ & _ & -> & -> & ->).
    apply Difference_elem in Hs as (Hs & _).
    apply AddressSet_elem in Hs as (ip & _ & V & ->).
    destruct (reparse_valid parseIPv6 ip6String strictIP ip V) as (? & ? & _).
    auto.
Qed.

(** C4 (as amended).  For every candidate address set, if the configured
    CIDR string is malformed then the pass still returns the full
    candidate list, the flag is false (no conflict line, no context line,
    no pass error), and the parse failure is logged once for each
    candidate address - hence not at all when there is no candidate. *)
Theorem C4_malformed_cidr_degrades :
  forall CIDR h node bind ipset err,
    sets.fair (host_order h) ->
    snd (ParseCIDR CIDR) = Some err ->
    collect h = Ok (node, bind, ipset) ->
    value (fetchNodeIPs CIDR h) = Ok (map ParseIP (host_order h ipset))
    /\ map ParseIP (host_order h ipset) ≡ₚ map ParseIP (elements ipset)
    /\ conflictFlag CIDR (host_order h) ipset = false
    /\ conflictsLogged (trace (fetchNodeIPs CIDR h)) = []
    /\ contextsLogged (trace (fetchNodeIPs CIDR h)) = []
    /\ parseErrorsLogged (trace (fetchNodeIPs CIDR h))
       = replicate (size ipset) err.
Proof.
  intros CIDR h node bind ipset err F E Hc.
  destruct (fetchNodeIPs_ok parseIPv6 ip6String strictIP strictCIDR
              CIDR h _ _ _ Hc) as (Hv & _).
  assert (Hflag : conflictFlag CIDR (host_order h) ipset = false).
  { destruct (conflictFlag CIDR (host_order h) ipset) eqn:Ef; [|reflexivity].
    apply (conflictFlag_spec _ _ _ _ _ _ F) in Ef as (s & _ & Hs).
    rewrite malformed_not_inside in Hs; [discriminate|].
    rewrite E. discriminate. }
  assert (Hobs : forall B (f : Event -> option B),
             (forall e, isEnumeration e = true -> f e = None) ->
             omap f (trace (fetchNodeIPs CIDR h))
             = omap f (trace (detect CIDR (host_order h) ipset))).
  { intros B f Hf.
    rewrite (fetchNodeIPs_observe parseIPv6 ip6String strictIP strictCIDR
               CIDR h _ _ _ _ _ Hc Hf), Hflag, app_nil_r.
    reflexivity. }
  split; [exact Hv|]. split; [apply Permutation_map, F|].
  split; [exact Hflag|].
  unfold conflictsLogged, contextsLogged, parseErrorsLogged.
  rewrite !Hobs by (intros [] He; try discriminate; reflexivity).
  unfold Main.detect, sets.UnsortedList.
  pose proof (rangeLoop_conflicts parseIPv6 strictIP strictCIDR CIDR
                (host_order h ipset) (mkLoopVars [] false)) as Hcf.
  pose proof (rangeLoop_quiet parseIPv6 strictIP strictCIDR CIDR
                (host_order h ipset) (mkLoopVars [] false)) as (Hq & _).
  pose proof (rangeLoop_parseErrors parseIPv6 strictIP strictCIDR CIDR
                (host_order h ipset) (mkLoopVars [] false)) as Hpe.
  unfold conflictsLogged, contextsLogged, parseErrorsLogged in *.
  rewrite Hcf, Hq, Hpe, E, (fair_length _ _ F). simpl.
  split; [|auto].
  destruct (find (insideCIDR CIDR) (host_order h ipset)) as [s|] eqn:Ef;
    [|reflexivity].
  apply find_some in Ef as (_ & Hs).
  rewrite malformed_not_inside in Hs; [discriminate|].
  rewrite E. discriminate.
Qed.

(** ** Start-up and the loop *)

Lemma enumeration_only t :
  forallb isEnumeration t = true ->
  filter isParseCIDR t = []
  /\ conflictsLogged t = []
  /\ contextsLogged t = []
  /\ parseErrorsLogged t = []
  /\ sleeps t = [].
Proof.
  induction t as [|e t IH]; simpl; [auto|].
  intros H. apply andb_true_iff in H as (He & Ht).
  destruct (IH Ht) as (H1 & H2 & H3 & H4 & H5).
  unfold conflictsLogged, contextsLogged, parseErrorsLogged, sleeps in *.
  destruct e; try discriminate; simpl;
    rewrite ?H2, ?H3, ?H4, ?H5; repeat split; auto;
    rewrite filter_cons; simpl; exact H1.
Qed.

Lemma startup_short Args :
  length Args < 3 -> startup Args = (Return, [EvLog LogUsage]).
Proof.
  intros H. unfold Main.startup.
  apply Nat.ltb_lt in H. rewrite H. reflexivity.
Qed.

Lemma startup_long Args :
  3 <= length Args ->
  startup Args
  = match ParseDuration (nth 1 Args "" +:+ "ms") with
    | Err err =>
        (Return, [EvParseDuration (nth 1 Args "" +:+ "ms");
                  EvLog (LogParseTime err)])
    | Ok duration =>
        (EnterLoop duration (nth 2 Args ""),
         [EvParseDuration (nth 1 Args "" +:+ "ms")])
    end.
Proof.
  intros H. unfold Main.startup.
  apply Nat.ltb_ge in H. rewrite H.
  destruct (ParseDuration (nth 1 Args "" +:+ "ms")); reflexivity.
Qed.

Lemma main_unfold Args hosts :
  value (main Args hosts)
  = match value (startup Args) with
    | Return => Exited
    | EnterLoop _ _ => Looping
    end
  /\ trace (main Args hosts)
     = (trace (startup Args)
        ++ match value (startup Args) with
           | Return => []
           | EnterLoop duration CIDR => trace (loop duration CIDR hosts)
           end)%list.
Proof.
  unfold Main.main. run.
  destruct (value (startup Args)); run; rewrite ?app_nil_r; auto.
Qed.

Lemma loop_sleeps duration CIDR hosts :
  sleeps (trace (loop duration CIDR hosts))
  = replicate (length hosts) duration.
Proof.
  induction hosts as [|h hosts IH]; simpl; [reflexivity|].
  run. rewrite iteration_trace. unfold sleeps in *.
  rewrite !omap_app, IH. simpl.
  assert (Hf : omap (fun e => match e with EvSleep d => Some d | _ => None end)
                 (trace (fetchNodeIPs CIDR h)) = []).
  { destruct (collect h) as [[[node bind] ipset]|e] eqn:Hc.
    - rewrite (fetchNodeIPs_observe parseIPv6 ip6String strictIP strictCIDR
                 CIDR h _ _ _ _ _ Hc)
        by (intros [] He; try discriminate; reflexivity).
      destruct (rangeLoop_quiet parseIPv6 strictIP strictCIDR CIDR
                  (host_order h ipset) (mkLoopVars [] false)) as (_ & _ & Hs).
      unfold Main.detect, sets.UnsortedList, sleeps in *. rewrite Hs.
      destruct (conflictFlag CIDR (host_order h) ipset); reflexivity.
    - destruct (fetchNodeIPs_err parseIPv6 ip6String strictIP strictCIDR
                  CIDR h _ Hc) as (_ & He).
      apply enumeration_only in He as (_ & _ & _ & _ & Hs). exact Hs. }
  rewrite Hf. reflexivity.
Qed.

(** C5.  Whenever either address source fails, the pass returns an error
    having done nothing but the enumeration calls (no CIDR is parsed, no
    conflict is reported), and the driving loop logs the error, sleeps and
    goes on with the passes that follow instead of terminating. *)
Theorem C5_source_failure_logged_and_survived :
  forall CIDR h,
    sourceFails h ->
    exists err,
      value (fetchNodeIPs CIDR h) = Err err
      /\ forallb isEnumeration (trace (fetchNodeIPs CIDR h)) = true
      /\ filter isParseCIDR (trace (fetchNodeIPs CIDR h)) = []
      /\ conflictsLogged (trace (fetchNodeIPs CIDR h)) = []
      /\ contextsLogged (trace (fetchNodeIPs CIDR h)) = []
      /\ forall Args duration before after,
           value (startup Args) = EnterLoop duration CIDR ->
           value (main Args (before ++ h :: after)) = Looping
           /\ trace (main Args (before ++ h :: after))
              = (trace (main Args before)
                 ++ trace (fetchNodeIPs CIDR h)
                 ++ [EvLog (LogFetchFailed err); EvSleep duration]
                 ++ trace (loop duration CIDR after))%list.
Proof.
  intros CIDR h Hf.
  apply (sourceFails_collect ip6String) in Hf as (err & Hc).
  destruct (fetchNodeIPs_err parseIPv6 ip6String strictIP strictCIDR
              CIDR h _ Hc) as (Hv & He).
  exists err. split; [exact Hv|]. split; [exact He|].
  destruct (enumeration_only _ He) as (H1 & H2 & H3 & _).
  split; [exact H1|]. split; [exact H2|]. split; [exact H3|].
  intros Args duration before after Hs.
  destruct (main_unfold Args (before ++ h :: after)) as (-> & ->).
  destruct (main_unfold Args before) as (_ & ->).
  rewrite Hs. split; [reflexivity|].
  rewrite loop_app, loop_cons, iteration_trace, Hv.
  rewrite <- !app_assoc. reflexivity.
Qed.

(** C6 (as amended).  In every pass whose address sources both answer,
    the CIDR string is parsed once for each candidate address - as many
    times as there are candidates, and not at all when there is none -,
    each turn of the loop beginning with its one parse; a pass whose
    sources fail parses nothing. *)
Theorem C6_cidr_parsed_once_per_candidate :
  (forall CIDR h node bind ipset,
      sets.fair (host_order h) ->
      collect h = Ok (node, bind, ipset) ->
      length (filter isParseCIDR (trace (fetchNodeIPs CIDR h))) = size ipset)
  /\ (forall CIDR vars ipStr,
         exists rest,
           trace (loopBody parseIPv6 strictIP strictCIDR CIDR vars ipStr)
           = EvParseCIDR CIDR :: rest
           /\ filter isParseCIDR rest = [])
  /\ (forall CIDR h,
         sourceFails h ->
         length (filter isParseCIDR (trace (fetchNodeIPs CIDR h))) = 0).
Proof.
  split; [|split].
  - intros CIDR h node bind ipset F Hc.
    rewrite (fetchNodeIPs_parses parseIPv6 ip6String strictIP strictCIDR
               CIDR h _ _ _ Hc).
    apply fair_length, F.
  - intros CIDR vars ipStr. rewrite loopBody_trace.
    unfold bodyTrace. eexists. split; [reflexivity|].
    destruct (snd (ParseCIDR CIDR));
      destruct (insideCIDR CIDR ipStr && negb (invalidIP vars)); reflexivity.
  - intros CIDR h Hf.
    apply (sourceFails_collect ip6String) in Hf as (err & Hc).
    destruct (fetchNodeIPs_err parseIPv6 ip6String strictIP strictCIDR
                CIDR h _ Hc) as (_ & He).
    apply enumeration_only in He as (-> & _). reflexivity.
Qed.

(** C7.  For a fixed well-formed CIDR and every candidate address set,
    adding an address that lies inside the CIDR yields a true flag; hence
    it never turns a true flag into a false one.  More generally the flag
    is monotone in the candidate set. *)
Theorem C7_adding_inside_address_sets_flag :
  forall CIDR ipnet order (S : gset string) a,
    sets.fair order ->
    snd (fst (ParseCIDR CIDR)) = Some ipnet ->
    net.Contains ipnet (ParseIP a) = true ->
    conflictFlag CIDR order ({[a]} ∪ S) = true
    /\ (conflictFlag CIDR order S = true ->
        conflictFlag CIDR order ({[a]} ∪ S) = true)
    /\ (forall S' : gset string,
           S ⊆ S' ->
           conflictFlag CIDR order S = true ->
           conflictFlag CIDR order S' = true).
Proof.
  intros CIDR ipnet order S a F E Ha.
  assert (Hin : insideCIDR CIDR a = true).
  { unfold Main.insideCIDR.
    destruct (ParseCIDR CIDR) as [[ip n] e]. simpl in E. subst n. exact Ha. }
  assert (Hadd : conflictFlag CIDR order ({[a]} ∪ S) = true).
  { apply (conflictFlag_spec _ _ _ _ _ _ F). exists a.
    split; [set_solver|auto]. }
  split; [exact Hadd|]. split; [intros _; exact Hadd|].
  intros S' Hsub Hflag.
  apply (conflictFlag_spec _ _ _ _ _ _ F) in Hflag as (s & Hs & Hi).
  apply (conflictFlag_spec _ _ _ _ _ _ F). exists s. split; [set_solver|auto].
Qed.

(** C8.  At start-up, if a positional argument is missing (fewer than
    three entries in [os.Args]) or the interval argument, with ["ms"]
    appended, does not parse, the process reports the error and exits:
    the trace is that one report, and no pass is executed however long
    the process is observed. *)
Theorem C8_bad_arguments_exit_before_loop :
  forall Args hosts,
    length Args < 3
    \/ is_ok (ParseDuration (nth 1 Args "" +:+ "ms")) = false ->
    value (main Args hosts) = Exited
    /\ (trace (main Args hosts) = [EvLog LogUsage]
        \/ exists err,
            trace (main Args hosts)
            = [EvParseDuration (nth 1 Args "" +:+ "ms");
               EvLog (LogParseTime err)])
    /\ filter isEnumeration (trace (main Args hosts)) = []
    /\ filter isParseCIDR (trace (main Args hosts)) = []
    /\ sleeps (trace (main Args hosts)) = [].
Proof.
  intros Args hosts H.
  destruct (main_unfold Args hosts) as (-> & ->).
  destruct (Nat.lt_ge_cases (length Args) 3) as [Hlt|Hge].
  - rewrite (startup_short _ Hlt). simpl. auto 10.
  - destruct H as [H|H]; [lia|].
    rewrite (startup_long _ Hge).
    destruct (ParseDuration (nth 1 Args "" +:+ "ms")) as [d|err];
      [discriminate|].
    simpl. repeat split; eauto.
Qed.

(** C9.  When candidate addresses lie inside the CIDR in a pass - two or
    more in particular -, the per-address conflict line names only the
    first of them in the order of iteration; the others produce no such
    line, though they are in the returned list and in the one context
    line. *)
Theorem C9_only_first_conflict_is_named :
  forall CIDR h node bind ipset first,
    sets.fair (host_order h) ->
    collect h = Ok (node, bind, ipset) ->
    find (insideCIDR CIDR) (host_order h ipset) = Some first ->
    conflictsLogged (trace (fetchNodeIPs CIDR h)) = [ParseIP first]
    /\ value (fetchNodeIPs CIDR h) = Ok (map ParseIP (host_order h ipset))
    /\ contextsLogged (trace (fetchNodeIPs CIDR h))
       = [map ParseIP (host_order h ipset)]
    /\ forall ipStr,
         ipStr ∈ ipset ->
         insideCIDR CIDR ipStr = true ->
         ParseIP ipStr ∈ map ParseIP (host_order h ipset).
Proof.
  intros CIDR h node bind ipset first F Hc Hfind.
  destruct (fetchNodeIPs_ok parseIPv6 ip6String strictIP strictCIDR
              CIDR h _ _ _ Hc) as (Hv & _).
  assert (Hflag : conflictFlag CIDR (host_order h) ipset = true).
  { apply find_some in Hfind as (Hin & Hi).
    apply (conflictFlag_spec _ _ _ _ _ _ F). exists first. split; [|exact Hi].
    apply (fair_elem _ _ _ F). apply list_elem_of_In. exact Hin. }
  pose proof (rangeLoop_conflicts parseIPv6 strictIP strictCIDR CIDR
                (host_order h ipset) (mkLoopVars [] false)) as Hcf.
  pose proof (rangeLoop_quiet parseIPv6 strictIP strictCIDR CIDR
                (host_order h ipset) (mkLoopVars [] false)) as (Hq & _).
  unfold conflictsLogged, contextsLogged in *.
  rewrite !(fetchNodeIPs_observe parseIPv6 ip6String strictIP strictCIDR
              CIDR h _ _ _ _ _ Hc)
    by (intros [] He; try discriminate; reflexivity).
  unfold Main.detect, sets.UnsortedList.
  rewrite Hcf, Hq, Hflag, Hfind. simpl.
  split; [reflexivity|]. split; [exact Hv|]. split; [reflexivity|].
  intros ipStr Hin _. apply list_elem_of_fmap. exists ipStr.
  split; [reflexivity|]. apply (fair_elem _ _ _ F). exact Hin.
Qed.

Lemma paused_replicate n d : (d < 0)%Z -> paused_of (replicate n d) = 0%Z.
Proof.
  intros Hd. unfold paused_of.
  induction n as [|n IH]; simpl; [reflexivity|].
  rewrite IH. unfold time.Sleep. lia.
Qed.

(** C10.  The start-up check accepts every interval argument [A] such
    that [A] with ["ms"] appended parses as a duration, and enters the
    loop with that duration.  A fractional value such as ["2.5"] and a
    negative value such as ["-100"] are accepted; with a negative interval
    every end-of-pass sleep returns at once. *)
Theorem C10_interval_is_any_duration_text :
  (forall f u s, (f < s)%N -> (f64MulDiv f u s <= u)%N) ->
  (forall prog A CIDR rest duration,
      ParseDuration (A +:+ "ms") = Ok duration ->
      value (startup (prog :: A :: CIDR :: rest)) = EnterLoop duration CIDR
      /\ forall hosts,
          value (main (prog :: A :: CIDR :: rest) hosts) = Looping
          /\ sleeps (trace (main (prog :: A :: CIDR :: rest) hosts))
             = replicate (length hosts) duration
          /\ ((duration < 0)%Z ->
              paused (trace (main (prog :: A :: CIDR :: rest) hosts)) = 0%Z))
  /\ (exists duration,
         ParseDuration ("2.5" +:+ "ms") = Ok duration
         /\ (2000000 <= duration <= 3000000)%Z)
  /\ ParseDuration ("-100" +:+ "ms") = Ok (-100000000)%Z
  /\ (forall duration, (duration <= 0)%Z -> time.Sleep duration = 0%Z).
Proof.
  intros Hfrac. split; [|split; [|split]].
  - intros prog A CIDR rest duration Hp.
    assert (Hs : startup (prog :: A :: CIDR :: rest)
                 = (EnterLoop duration CIDR, [EvParseDuration (A +:+ "ms")])).
    { rewrite startup_long by (simpl; lia). simpl. rewrite Hp. reflexivity. }
    split; [rewrite Hs; reflexivity|].
    intros hosts. destruct (main_unfold (prog :: A :: CIDR :: rest) hosts)
      as (-> & Ht).
    rewrite Hs. simpl. split; [reflexivity|].
    assert (Hsl : sleeps (trace (main (prog :: A :: CIDR :: rest) hosts))
                  = replicate (length hosts) duration).
    { rewrite Ht, Hs. simpl. unfold sleeps. simpl.
      apply loop_sleeps. }
    split; [exact Hsl|].
    intros Hneg. unfold paused. rewrite Hsl.
    apply paused_replicate. exact Hneg.
  - pose proof (Hfrac 5 1000000 10 eq_refl)%N as Hb.
    assert (Ha : time.addTerm f64MulDiv 2 5 10 1000000 0
                 = Some (2000000 + f64MulDiv 5 1000000 10)%N).
    { unfold time.addTerm.
      change (time.two63 `div` 1000000 <? 2)%N with false.
      change (0 <? 5)%N with true. cbv iota zeta.
      change (2 * 1000000)%N with 2000000%N.
      rewrite N.add_0_l.
      rewrite !N.mod_small by (unfold time.two64; lia).
      replace (time.two63 <? _)%N with false
        by (symmetry; apply N.ltb_ge; unfold time.two63; lia).
      reflexivity. }
    assert (E : ParseDuration ("2.5" +:+ "ms")
                = match
                    match time.addTerm f64MulDiv 2 5 10 1000000 0 with
                    | None => Err "time: invalid duration 2.5ms"
                    | Some d' => Ok d'
                    end
                  with
                  | Err e => Err e
                  | Ok d => time.signed false d "2.5ms"
                  end).
    { lazy -[time.addTerm time.signed]. reflexivity. }
    rewrite E, Ha. unfold time.signed.
    replace (time.two63 - 1 <? _)%N with false
      by (symmetry; apply N.ltb_ge; unfold time.two63; lia).
    eexists; split; [reflexivity|lia].
  - reflexivity.
  - intros duration H. unfold time.Sleep. lia.
Qed.

End Claims.

(** * The claims on the sample hosts *)

Lemma collect_hostB :
  collect Sample.ip6String Sample.hostB = Ok (Sample.setB, ∅, Sample.setB).
Proof. vm_compute. reflexivity. Qed.

Lemma collect_hostTwo :
  collect Sample.ip6String Sample.hostTwo
  = Ok (Sample.setTwo, ∅, Sample.setTwo).
Proof. vm_compute. reflexivity. Qed.

(** C1 on the host of scenario B with the CIDR 10.96.0.0/12. *)
Lemma C1_witness :
  sets.fair (host_order Sample.hostB)
  /\ wellFormedCIDR Sample.parseIPv6 true "10.96.0.0/12"
  /\ value (Sample.fetchNodeIPs "10.96.0.0/12" Sample.hostB)
     = Ok (map (ParseIP Sample.parseIPv6 true) (elements Sample.setB))
  /\ contextsLogged (trace (Sample.fetchNodeIPs "10.96.0.0/12" Sample.hostB))
     = if conflictFlag Sample.parseIPv6 true true "10.96.0.0/12" elements
            Sample.setB
       then [map (ParseIP Sample.parseIPv6 true) (elements Sample.setB)]
       else [].
Proof.
  assert (F : sets.fair (host_order Sample.hostB)) by (intros s; reflexivity).
  assert (W : wellFormedCIDR Sample.parseIPv6 true "10.96.0.0/12")
    by reflexivity.
  pose proof collect_hostB as Hc.
  destruct (proj1 (C1_conflict_iff_candidate_inside
                     Sample.parseIPv6 Sample.ip6String true true)
              "10.96.0.0/12" Sample.hostB _ _ _ F W Hc)
    as (ipnet & _ & _ & Hv & _ & Hl).
  split; [exact F|]. split; [exact W|]. split; [exact Hv|exact Hl].
Defined.

(** C2 on the host of scenario A: 10.96.0.10 is a local address bound
    to [kube-ipvs0]; the pass returns 10.0.0.5 only. *)
Lemma C2_witness :
  sets.fair (host_order Sample.hostA)
  /\ host_InterfaceAddrs Sample.hostA
     = Ok [Sample.ifaddr x0a x00 x00 x05 24; Sample.ifaddr x7f x00 x00 x01 8;
           Sample.ifaddr x0a x60 x00 x0a 32]
  /\ host_InterfaceByName Sample.hostA "kube-ipvs0"
     = Ok (mkInterface "kube-ipvs0" (Ok [Sample.ifaddr x0a x60 x00 x0a 32]))
  /\ "10.96.0.10"
     ∈ AddressSet Sample.ip6String isValidForSet
         [Sample.ifaddr x0a x60 x00 x0a 32]
  /\ value (Sample.fetchNodeIPs "10.96.0.0/12" Sample.hostA)
     = Ok [net.IPv4 x0a x00 x00 x05]
  /\ net.IPv4 x0a x60 x00 x0a ∉ [net.IPv4 x0a x00 x00 x05].
Proof.
  assert (F : sets.fair (host_order Sample.hostA)) by (intros s; reflexivity).
  assert (Hin : "10.96.0.10"
                ∈ AddressSet Sample.ip6String isValidForSet
                    [Sample.ifaddr x0a x60 x00 x0a 32]).
  { apply AddressSet_elem. exists (Some [x0a; x60; x00; x0a]).
    split; [left|split; reflexivity]. }
  destruct (proj2 (C2_difference_disjoint_subset
                     Sample.parseIPv6 Sample.ip6String true true)
              "10.96.0.0/12" Sample.hostA _ _ _ _ _
              F eq_refl eq_refl eq_refl eq_refl eq_refl)
    as (_ & _ & _ & Hv & _ & Hex & _).
  specialize (Hex "10.96.0.10" Hin).
  assert (E : map (ParseIP Sample.parseIPv6 true)
                (host_order Sample.hostA
                   (sets.Difference
                      (AddressSet Sample.ip6String isValidForSet
                         [Sample.ifaddr x0a x00 x00 x05 24;
                          Sample.ifaddr x7f x00 x00 x01 8;
                          Sample.ifaddr x0a x60 x00 x0a 32])
                      (AddressSet Sample.ip6String isValidForSet
                         [Sample.ifaddr x0a x60 x00 x0a 32])))
              = [net.IPv4 x0a x00 x00 x05]) by (vm_compute; reflexivity).
  rewrite E in Hv, Hex.
  split; [exact F|]. split; [reflexivity|]. split; [reflexivity|].
  split; [exact Hin|]. split; [exact Hv|exact Hex].
Defined.

(** The claim C3 fails for a collector tracking v6: the filter of the
    specification lets the global address 2001:db8::1 through, the filter
    of the probe excludes it. *)
Lemma C3_counterexample :
  specFilter true Sample.global6 = true
  /\ isValidForSet Sample.global6 = false
  /\ isValidForSet Sample.global6 <> specFilter true Sample.global6.
Proof. split; [|split]; [reflexivity|reflexivity|discriminate]. Qed.

(** C3 on the host of scenario B: the one address returned. *)
Lemma C3_witness :
  sets.fair (host_order Sample.hostB)
  /\ value (Sample.fetchNodeIPs "10.96.0.0/12" Sample.hostB)
     = Ok [net.IPv4 x0a x60 x00 x05]
  /\ net.IsLoopback (net.IPv4 x0a x60 x00 x05) = false
  /\ IsIPv6 (net.IPv4 x0a x60 x00 x05) = false.
Proof.
  assert (F : sets.fair (host_order Sample.hostB)) by (intros s; reflexivity).
  assert (Hv : value (Sample.fetchNodeIPs "10.96.0.0/12" Sample.hostB)
               = Ok [net.IPv4 x0a x60 x00 x05]) by (vm_compute; reflexivity).
  split; [exact F|]. split; [exact Hv|].
  apply (proj2 (proj2 (proj2 (proj2 (C3_filter_excludes_loopback_and_v6
                                       Sample.parseIPv6 Sample.ip6String
                                       true true))))
           "10.96.0.0/12" Sample.hostB _ _ F Hv).
  apply list_elem_of_here.
Defined.

(** The claim C4 fails when there is no candidate: with the malformed
    CIDR string 10.96.0.0 (no prefix length) and a host without
    addresses, the pass logs no parse failure. *)
Lemma C4_counterexample :
  snd (net.ParseCIDR Sample.parseIPv6 true "10.96.0.0")
  = Some "invalid CIDR address: 10.96.0.0"
  /\ collect Sample.ip6String Sample.hostEmpty = Ok (∅, ∅, ∅)
  /\ parseErrorsLogged
       (trace (Sample.fetchNodeIPs "10.96.0.0" Sample.hostEmpty)) = [].
Proof. split; [|split]; vm_compute; reflexivity. Qed.

(** C4 on the host of scenario B with the malformed CIDR 10.96.0.0. *)
Lemma C4_witness :
  sets.fair (host_order Sample.hostB)
  /\ snd (net.ParseCIDR Sample.parseIPv6 true "10.96.0.0")
     = Some "invalid CIDR address: 10.96.0.0"
  /\ conflictFlag Sample.parseIPv6 true true "10.96.0.0"
       (host_order Sample.hostB) Sample.setB = false
  /\ parseErrorsLogged (trace (Sample.fetchNodeIPs "10.96.0.0" Sample.hostB))
     = replicate (size Sample.setB)
         "invalid CIDR address: 10.96.0.0".
Proof.
  assert (F : sets.fair (host_order Sample.hostB)) by (intros s; reflexivity).
  assert (E : snd (net.ParseCIDR Sample.parseIPv6 true "10.96.0.0")
              = Some "invalid CIDR address: 10.96.0.0") by reflexivity.
  pose proof collect_hostB as Hc.
  destruct (C4_malformed_cidr_degrades
              Sample.parseIPv6 Sample.ip6String true true
              "10.96.0.0" Sample.hostB _ _ _ _ F E Hc)
    as (_ & _ & Hf & _ & _ & Hp).
  split; [exact F|]. split; [exact E|]. split; [exact Hf|exact Hp].
Defined.

(** C5 on the host of scenario D, between two passes on the host of
    scenario B. *)
Lemma C5_witness :
  sourceFails Sample.hostD
  /\ exists err,
      value (Sample.fetchNodeIPs "10.96.0.0/12" Sample.hostD) = Err err
      /\ value (Sample.main ["probe"; "100"; "10.96.0.0/12"]
                  ([Sample.hostB] ++ Sample.hostD :: [Sample.hostB]))
         = Looping.
Proof.
  assert (Hf : sourceFails Sample.hostD) by (right; exact I).
  destruct (C5_source_failure_logged_and_survived
              Sample.parseIPv6 Sample.ip6String true true Sample.f64MulDiv
              "10.96.0.0/12" Sample.hostD Hf)
    as (err & Hv & _ & _ & _ & _ & Hloop).
  split; [exact Hf|]. exists err. split; [exact Hv|].
  apply (Hloop ["probe"; "100"; "10.96.0.0/12"] 100000000%Z
           [Sample.hostB] [Sample.hostB]).
  vm_compute. reflexivity.
Defined.

(** The claim C6 fails: a pass with two candidates parses the CIDR
    string twice, a pass without candidates never. *)
Lemma C6_counterexample :
  length (filter isParseCIDR
            (trace (Sample.fetchNodeIPs "10.96.0.0/12" Sample.hostTwo))) = 2
  /\ length (filter isParseCIDR
               (trace (Sample.fetchNodeIPs "10.96.0.0/12" Sample.hostTwo)))
     <> 1
  /\ length (filter isParseCIDR
               (trace (Sample.fetchNodeIPs "10.96.0.0/12" Sample.hostEmpty)))
     = 0.
Proof.
  split; [|split]; [vm_compute; reflexivity|vm_compute; discriminate
                   |vm_compute; reflexivity].
Qed.

(** C6 on the host with two candidates. *)
Lemma C6_witness :
  sets.fair (host_order Sample.hostTwo)
  /\ length (filter isParseCIDR
               (trace (Sample.fetchNodeIPs "10.96.0.0/12" Sample.hostTwo)))
     = size Sample.setTwo.
Proof.
  assert (F : sets.fair (host_order Sample.hostTwo)) by (intros s; reflexivity).
  pose proof collect_hostTwo as Hc.
  split; [exact F|].
  apply (proj1 (C6_cidr_parsed_once_per_candidate
                  Sample.parseIPv6 Sample.ip6String true true)
           "10.96.0.0/12" Sample.hostTwo _ _ _ F Hc).
Defined.

(** C7: adding 10.96.0.5 to the candidate set {10.0.0.5}. *)
Lemma C7_witness :
  sets.fair elements
  /\ net.Contains
       (net.mkIPNet (Some [x0a; x60; x00; x00]) (Some [xff; xf0; x00; x00]))
       (ParseIP Sample.parseIPv6 true "10.96.0.5") = true
  /\ conflictFlag Sample.parseIPv6 true true "10.96.0.0/12" elements
       ({["10.96.0.5"]} ∪ {["10.0.0.5"]} : gset string) = true.
Proof.
  assert (F : sets.fair elements) by (intros s; reflexivity).
  assert (Hin : net.Contains
                  (net.mkIPNet (Some [x0a; x60; x00; x00])
                     (Some [xff; xf0; x00; x00]))
                  (ParseIP Sample.parseIPv6 true "10.96.0.5") = true)
    by reflexivity.
  split; [exact F|]. split; [exact Hin|].
  apply (proj1 (C7_adding_inside_address_sets_flag Sample.parseIPv6 true true
                  "10.96.0.0/12" _ elements ({["10.0.0.5"]} : gset string)
                  "10.96.0.5" F eq_refl Hin)).
Defined.

(** C8: an interval that is no duration. *)
Lemma C8_witness :
  is_ok (time.ParseDuration Sample.f64MulDiv
           (nth 1 ["probe"; "soon"; "10.96.0.0/12"] "" +:+ "ms")) = false
  /\ value (Sample.main ["probe"; "soon"; "10.96.0.0/12"] [Sample.hostB])
     = Exited
  /\ sleeps (trace (Sample.main ["probe"; "soon"; "10.96.0.0/12"]
                      [Sample.hostB])) = [].
Proof.
  assert (H : is_ok (time.ParseDuration Sample.f64MulDiv
                       (nth 1 ["probe"; "soon"; "10.96.0.0/12"] "" +:+ "ms"))
              = false) by reflexivity.
  destruct (C8_bad_arguments_exit_before_loop
              Sample.parseIPv6 Sample.ip6String true true Sample.f64MulDiv
              ["probe"; "soon"; "10.96.0.0/12"] [Sample.hostB] (or_intror H))
    as (Hv & _ & _ & _ & Hs).
  split; [exact H|]. split; [exact Hv|exact Hs].
Defined.

(** C9 on the host with two candidates, both inside 10.96.0.0/12. *)
Lemma C9_witness :
  sets.fair (host_order Sample.hostTwo)
  /\ find (insideCIDR Sample.parseIPv6 true true "10.96.0.0/12")
       (host_order Sample.hostTwo Sample.setTwo)
     = Some "10.96.0.5"
  /\ conflictsLogged
       (trace (Sample.fetchNodeIPs "10.96.0.0/12" Sample.hostTwo))
     = [ParseIP Sample.parseIPv6 true "10.96.0.5"].
Proof.
  assert (F : sets.fair (host_order Sample.hostTwo)) by (intros s; reflexivity).
  pose proof collect_hostTwo as Hc.
  assert (Hfind : find (insideCIDR Sample.parseIPv6 true true "10.96.0.0/12")
                    (host_order Sample.hostTwo
                       Sample.setTwo)
                  = Some "10.96.0.5") by (vm_compute; reflexivity).
  split; [exact F|]. split; [exact Hfind|].
  apply (C9_only_first_conflict_is_named
           Sample.parseIPv6 Sample.ip6String true true
           "10.96.0.0/12" Sample.hostTwo _ _ _ _ F Hc Hfind).
Defined.

(** C10 with the exact product and the interval argument 100. *)
Lemma C10_witness :
  (forall f u s, (f < s)%N -> (Sample.f64MulDiv f u s <= u)%N)
  /\ time.ParseDuration Sample.f64MulDiv ("100" +:+ "ms") = Ok 100000000%Z
  /\ value (startup Sample.f64MulDiv ["probe"; "100"; "10.96.0.0/12"])
     = EnterLoop 100000000%Z "10.96.0.0/12".
Proof.
  assert (Hfrac : forall f u s,
             (f < s)%N -> (Sample.f64MulDiv f u s <= u)%N).
  { intros f u s H. unfold Sample.f64MulDiv.
    apply N.Div0.div_le_upper_bound. nia. }
  assert (Hp : time.ParseDuration Sample.f64MulDiv ("100" +:+ "ms")
               = Ok 100000000%Z) by reflexivity.
  split; [exact Hfrac|]. split; [exact Hp|].
  apply (proj1 (C10_interval_is_any_duration_text
                  Sample.parseIPv6 Sample.ip6String true true
                  Sample.f64MulDiv Hfrac)
           "probe" "100" "10.96.0.0/12" [] 100000000%Z Hp).
Defined.

(** * Further properties of [main.go] *)

Section Extras.

Variable parseIPv6 : string -> net.IP.
Variable ip6String : list byte -> string.
Variables strictIP strictCIDR : bool.
Variable f64MulDiv : N -> N -> N -> N.

Local Abbreviation ParseIP := (Main.ParseIP parseIPv6 strictIP).
Local Abbreviation ParseCIDR := (net.ParseCIDR parseIPv6 strictCIDR).
Local Abbreviation IPString := (net.IP_String ip6String).
Local Abbreviation insideCIDR :=
  (Main.insideCIDR parseIPv6 strictIP strictCIDR).
Local Abbreviation rangeLoop := (Main.rangeLoop parseIPv6 strictIP strictCIDR).
Local Abbreviation detect := (Main.detect parseIPv6 strictIP strictCIDR).
Local Abbreviation conflictFlag :=
  (Main.conflictFlag parseIPv6 strictIP strictCIDR).
Local Abbreviation fetchNodeIPs :=
  (Main.fetchNodeIPs parseIPv6 ip6String strictIP strictCIDR).
Local Abbreviation collect := (Main.collect ip6String).
Local Abbreviation AddressSet := (Main.AddressSet ip6String).
Local Abbreviation getAllLocalAddresses :=
  (Main.getAllLocalAddresses ip6String).
Local Abbreviation bindedIPs := (Main.bindedIPs ip6String).
Local Abbreviation GetLocalAddresses := (Main.GetLocalAddresses ip6String).
Local Abbreviation iteration :=
  (Main.iteration parseIPv6 ip6String strictIP strictCIDR).
Local Abbreviation loop := (Main.loop parseIPv6 ip6String strictIP strictCIDR).
Local Abbreviation startup := (Main.startup f64MulDiv).
Local Abbreviation main :=
  (Main.main parseIPv6 ip6String strictIP strictCIDR f64MulDiv).
Local Abbreviation ParseDuration := (time.ParseDuration f64MulDiv).

(** ** [AddressSet] *)

(** X1.  [AddressSet] holds exactly the texts of the addresses carried by
    the [*net.IPAddr] and [*net.IPNet] entries that the validator
    accepts; an entry of any other type is skipped, wherever it stands. *)
Theorem X1_AddressSet_members :
  forall isValid,
    (forall addrs (x : string),
        x ∈ AddressSet isValid addrs
        <-> exists ip,
            ip ∈ addrIPs addrs /\ isValid ip = true /\ x = IPString ip)
    /\ (forall before network text after,
           AddressSet isValid (before ++ OtherAddr network text :: after)
           = AddressSet isValid (before ++ after)).
Proof.
  intros isValid. split.
  - intros addrs x. apply AddressSet_elem.
  - intros before network text after. apply set_eq. intros x.
    rewrite !AddressSet_elem. unfold addrIPs.
    rewrite !omap_app. simpl. reflexivity.
Qed.

(** X2.  [AddressSet] does not depend on the order of the addresses nor
    on repetitions: the set of a concatenation is the union of the sets,
    whichever part comes first, and an address listed twice counts
    once. *)
Theorem X2_AddressSet_union :
  forall isValid l1 l2,
    AddressSet isValid (l1 ++ l2)
    = AddressSet isValid l1 ∪ AddressSet isValid l2
    /\ AddressSet isValid (l1 ++ l2) = AddressSet isValid (l2 ++ l1)
    /\ AddressSet isValid (l1 ++ l1) = AddressSet isValid l1.
Proof.
  intros isValid l1 l2.
  assert (U : forall k1 k2,
             AddressSet isValid (k1 ++ k2)
             = AddressSet isValid k1 ∪ AddressSet isValid k2).
  { intros k1 k2. apply set_eq. intros x.
    rewrite elem_of_union, !AddressSet_elem. unfold addrIPs.
    rewrite omap_app. split.
    - intros (ip & Hin & V & ->). apply elem_of_app in Hin as [Hin|Hin];
        [left|right]; exists ip; auto.
    - intros [(ip & Hin & V & ->)|(ip & Hin & V & ->)]; exists ip;
        (split; [apply elem_of_app; auto|auto]). }
  split; [apply U|]. split.
  - rewrite !U. apply set_eq. intros x. rewrite !elem_of_union.
    split; intros [H|H]; auto.
  - rewrite U. apply set_eq. intros x. rewrite elem_of_union.
    split; [intros [H|H]; exact H|auto].
Qed.

Lemma addrIPs_cons a addrs :
  length (addrIPs (a :: addrs))
  = match a with OtherAddr _ _ => 0 | _ => 1 end + length (addrIPs addrs).
Proof. destruct a; reflexivity. Qed.

Lemma AddressSetFrom_size isValid addrs (acc : gset string) :
  size (Main.AddressSetFrom ip6String isValid addrs acc)
  <= size acc + length (addrIPs addrs).
Proof.
  revert acc.
  induction addrs as [|a addrs IH]; intros acc; [simpl; lia|].
  assert (Hins : forall x, size (sets.Insert acc x) <= S (size acc)).
  { intros x. unfold sets.Insert. rewrite size_union_alt, size_singleton.
    assert (size (acc ∖ {[x]}) <= size acc)
      by (apply subseteq_size; set_solver).
    lia. }
  rewrite addrIPs_cons.
  destruct a as [ip zone|n|network text];
    simpl (Main.AddressSetFrom _ _ _ _).
  - destruct (isValid ip).
    + etransitivity; [apply IH|]. specialize (Hins (IPString ip)). lia.
    + etransitivity; [apply IH|]. lia.
  - destruct (isValid (net.ipnet_IP n)).
    + etransitivity; [apply IH|].
      specialize (Hins (IPString (net.ipnet_IP n))). lia.
    + etransitivity; [apply IH|]. lia.
  - apply IH.
Qed.

(** X3.  [AddressSet] has at most as many members as there are
    address-bearing entries, hence at most as many as entries; no entry,
    or a validator that refuses everything, gives the empty set. *)
Theorem X3_AddressSet_size :
  forall isValid addrs,
    size (AddressSet isValid addrs) <= length (addrIPs addrs)
    /\ length (addrIPs addrs) <= length addrs
    /\ AddressSet isValid [] = ∅
    /\ AddressSet (fun _ => false) addrs = ∅.
Proof.
  intros isValid addrs. split; [|split; [|split]].
  - unfold Main.AddressSet.
    etransitivity; [apply AddressSetFrom_size|].
    unfold sets.NewString. rewrite size_empty. lia.
  - induction addrs as [|a addrs IH]; [simpl; lia|].
    rewrite addrIPs_cons. destruct a; simpl; lia.
  - reflexivity.
  - apply set_eq. intros x. rewrite AddressSet_elem.
    split; [intros (ip & _ & V & _); discriminate|].
    intros H. apply not_elem_of_empty in H. destruct H.
Qed.

(** ** The filter *)

(** X4.  [IsIPv6] goes by the shape of the slice: [nil] and a 4-byte
    address are not IPv6; a 16-byte address is not IPv6 exactly when it
    starts with the IPv4-in-IPv6 prefix (ten zero bytes, then ff ff); a
    slice of any other length, the empty one included, counts as IPv6. *)
Theorem X4_IsIPv6_by_shape :
  IsIPv6 None = false
  /\ (forall l, length l = 4 -> IsIPv6 (Some l) = false)
  /\ (forall l,
         length l = 16 ->
         IsIPv6 (Some l) = false <-> take 12 l = net.v4InV6Prefix)
  /\ (forall l, length l <> 4 -> length l <> 16 -> IsIPv6 (Some l) = true).
Proof.
  split; [reflexivity|]. split; [|split].
  - intros l H. do 4 (destruct l as [|? l]; [discriminate|]).
    destruct l; [reflexivity|discriminate].
  - intros l H. do 16 (destruct l as [|? l]; [discriminate|]).
    destruct l; [|discriminate]. clear H.
    unfold IsIPv6, net.To4, net.v4InV6Prefix. simpl.
    match goal with
    | |- context [if ?c then Some _ else None] => destruct c eqn:E
    end; simpl.
    + split; [intros _|reflexivity].
      repeat match goal with
             | Hb : _ && _ = true |- _ =>
                 apply andb_true_iff in Hb as [? ?]
             end.
      repeat match goal with
             | Hb : Byte.eqb _ _ = true |- _ =>
                 apply byte_dec_bl in Hb; subst
             end.
      reflexivity.
    + split; [discriminate|].
      intros [= -> -> -> -> -> -> -> -> -> -> -> ->]. discriminate E.
  - intros l H4 H16. unfold IsIPv6, net.To4, net.IPv4len, net.IPv6len.
    apply Nat.eqb_neq in H4, H16. rewrite H4, H16. reflexivity.
Qed.

(** X5.  The filter refuses the whole of 127.0.0.0/8, in the 4-byte and
    in the 16-byte form alike, and lets every other IPv4 address through;
    it refuses ::1; and it lets a [nil] address through, whose text
    ["<nil>"] then is a member of the address set. *)
Theorem X5_filter_on_forms :
  (forall a b c d,
      isValidForSet (Some [a; b; c; d]) = negb (Byte.eqb a x7f)
      /\ isValidForSet (net.IPv4 a b c d) = negb (Byte.eqb a x7f))
  /\ isValidForSet (Some net.IPv6loopback) = false
  /\ isValidForSet None = true
  /\ (forall before zone after,
         "<nil>" ∈ AddressSet isValidForSet
                     (before ++ IPAddr None zone :: after)).
Proof.
  split; [|split; [|split]]; try reflexivity.
  - intros a b c d. unfold isValidForSet, IsIPv6, net.IsLoopback.
    rewrite To4_IPv4. simpl. destruct (Byte.eqb a x7f); auto.
  - intros before zone after. apply AddressSet_elem.
    exists None. split; [|split; reflexivity].
    unfold addrIPs. rewrite omap_app. apply elem_of_app. right. left.
Qed.

(** X6.  Text round trip: an address with a 4-byte form, printed by
    [AddressSet] and parsed again by [fetchNodeIPs], comes back as the
    16-byte form of the same four bytes, and [nil] comes back as [nil];
    two addresses the filter lets through have the same text exactly when
    they have the same 4-byte form, so that an address reported in both
    forms is one member of the set. *)
Theorem X6_text_round_trip :
  (forall ip a b c d,
      net.To4 ip = Some [a; b; c; d] ->
      ParseIP (IPString ip) = net.IPv4 a b c d)
  /\ ParseIP (IPString None) = None
  /\ (forall ip ip',
         isValidForSet ip = true ->
         isValidForSet ip' = true ->
         IPString ip = IPString ip' <-> net.To4 ip = net.To4 ip').
Proof.
  split; [|split].
  - intros ip a b c d E.
    rewrite (String_To4 _ _ _ _ _ _ E). apply ParseIP_dotted.
  - reflexivity.
  - intros ip ip' V V'.
    apply isValidForSet_cases in V as [->|(a & b & c & d & E & _)];
      apply isValidForSet_cases in V' as [->|(a' & b' & c' & d' & E' & _)].
    + split; reflexivity.
    + rewrite (String_To4 _ _ _ _ _ _ E'), E'. split; [|discriminate].
      intros H. apply (f_equal ParseIP) in H.
      rewrite (ParseIP_dotted parseIPv6 strictIP) in H. discriminate H.
    + rewrite (String_To4 _ _ _ _ _ _ E), E. split; [|discriminate].
      intros H. apply (f_equal ParseIP) in H.
      rewrite (ParseIP_dotted parseIPv6 strictIP) in H. discriminate H.
    + rewrite (String_To4 _ _ _ _ _ _ E), (String_To4 _ _ _ _ _ _ E'), E, E'.
      split.
      * intros H. apply (f_equal ParseIP) in H.
        rewrite !(ParseIP_dotted parseIPv6 strictIP) in H.
        injection H as -> -> -> ->. reflexivity.
      * intros [= -> -> -> ->]. reflexivity.
Qed.

(** ** The pass *)

(** X7.  The three ways a pass fails, in the order the sources are read:
    when the enumeration of all addresses fails, the dummy interface is
    never looked up and the error is wrapped twice; when the lookup of
    [kube-ipvs0] fails, its addresses are never asked for and the error
    of [GetLocalAddresses] is returned as it is; likewise when the
    addresses of the interface cannot be read, the message then naming
    the interface by the name it carries. *)
Theorem X7_fetch_error_paths :
  forall CIDR h,
    (forall e,
        host_InterfaceAddrs h = Err e ->
        fetchNodeIPs CIDR h
        = (Err ("error listing LOCAL type addresses from host, error: "
                +:+ "Could not get addresses: " +:+ e),
           [EvInterfaceAddrs]))
    /\ (forall addrs e,
           host_InterfaceAddrs h = Ok addrs ->
           host_InterfaceByName h "kube-ipvs0" = Err e ->
           fetchNodeIPs CIDR h
           = (Err ("Could not get interface kube-ipvs0: " +:+ e),
              [EvInterfaceAddrs; EvInterfaceByName "kube-ipvs0"]))
    /\ (forall addrs ifi e,
           host_InterfaceAddrs h = Ok addrs ->
           host_InterfaceByName h "kube-ipvs0" = Ok ifi ->
           ifi_Addrs ifi = Err e ->
           fetchNodeIPs CIDR h
           = (Err ("Can't get addresses from " +:+ ifi_Name ifi
                   +:+ ": " +:+ e),
              [EvInterfaceAddrs; EvInterfaceByName "kube-ipvs0";
               EvAddrs (ifi_Name ifi)])).
Proof.
  intros CIDR h. split; [|split].
  - intros e H.
    unfold Main.fetchNodeIPs, Main.getAllLocalAddresses. rewrite H.
    reflexivity.
  - intros addrs e H1 H2.
    unfold Main.fetchNodeIPs, Main.getAllLocalAddresses, Main.bindedIPs,
      Main.GetLocalAddresses.
    rewrite H1, H2. reflexivity.
  - intros addrs ifi e H1 H2 H3.
    unfold Main.fetchNodeIPs, Main.getAllLocalAddresses, Main.bindedIPs,
      Main.GetLocalAddresses.
    rewrite H1, H2, H3. reflexivity.
Qed.

Lemma omap_nil_of_forallb {B} (P : Event -> bool) (f : Event -> option B) t :
  forallb P t = true ->
  (forall e, P e = true -> f e = None) ->
  omap f t = [].
Proof.
  intros Ht Hf. induction t as [|e t IH]; [reflexivity|].
  simpl in Ht. apply andb_true_iff in Ht as (He & Ht).
  simpl. rewrite (Hf e He). apply IH, Ht.
Qed.

Lemma rangeLoop_events CIDR l vars :
  forallb isDetection (trace (rangeLoop CIDR l vars)) = true.
Proof.
  revert vars. induction l as [|s l IH]; intros vars; simpl; [reflexivity|].
  run. rewrite forallb_app, IH, loopBody_trace, andb_true_r.
  unfold bodyTrace.
  destruct (snd (ParseCIDR CIDR));
    destruct (insideCIDR CIDR s && negb (invalidIP vars)); reflexivity.
Qed.

(** What a pass shows of a kind of event that neither the enumeration
    nor the loop leaves. *)
Lemma fetchNodeIPs_other {B} (f : Event -> option B) CIDR h :
  (forall e, isEnumeration e = true -> f e = None) ->
  (forall e, isDetection e = true -> f e = None) ->
  (forall n b l, f (EvLog (LogContext n b l)) = None) ->
  omap f (trace (fetchNodeIPs CIDR h)) = [].
Proof.
  intros He Hd Hc.
  destruct (collect h) as [[[node bind] ipset]|err] eqn:E.
  - rewrite (fetchNodeIPs_observe parseIPv6 ip6String strictIP strictCIDR
               CIDR h _ _ _ _ f E He).
    unfold Main.detect, sets.UnsortedList.
    rewrite (omap_nil_of_forallb isDetection f _ (rangeLoop_events _ _ _) Hd).
    destruct (conflictFlag CIDR (host_order h) ipset); [|reflexivity].
    simpl. rewrite Hc. reflexivity.
  - destruct (fetchNodeIPs_err parseIPv6 ip6String strictIP strictCIDR
                CIDR h _ E) as (_ & Ht).
    apply (omap_nil_of_forallb isEnumeration f _ Ht He).
Qed.

(** X8.  The loop logs exactly one result line per pass, in the order of
    the passes, and that line reports what [fetchNodeIPs] returned: the
    full list, whether or not there was a conflict or a parse error, or
    the error.  Before the loop no result line is logged. *)
Theorem X8_one_result_line_per_pass :
  forall Args hosts,
    resultsLogged (trace (main Args hosts))
    = match value (startup Args) with
      | Return => []
      | EnterLoop duration CIDR =>
          map (fun h => value (fetchNodeIPs CIDR h)) hosts
      end.
Proof.
  intros Args hosts.
  destruct (main_unfold parseIPv6 ip6String strictIP strictCIDR f64MulDiv
              Args hosts) as (_ & ->).
  unfold resultsLogged. rewrite omap_app.
  assert (Hs : omap (fun e => match e with
                              | EvLog (LogFetchFailed err) => Some (Err err)
                              | EvLog (LogNodeIPs ips) => Some (Ok ips)
                              | _ => None
                              end) (trace (startup Args)) = []).
  { destruct (Nat.lt_ge_cases (length Args) 3) as [Hlt|Hge].
    - rewrite (startup_short f64MulDiv _ Hlt). reflexivity.
    - rewrite (startup_long f64MulDiv _ Hge).
      destruct (ParseDuration (nth 1 Args "" +:+ "ms")); reflexivity. }
  rewrite Hs. simpl.
  destruct (value (startup Args)) as [|duration CIDR]; [reflexivity|].
  induction hosts as [|h hosts IH]; [reflexivity|].
  rewrite loop_cons, iteration_trace, !omap_app, IH.
  rewrite fetchNodeIPs_other.
  - simpl. destruct (value (fetchNodeIPs CIDR h)); reflexivity.
  - intros e He. destruct e as [| | | | |[]|]; try discriminate He;
      reflexivity.
  - intros e He. destruct e as [| | | | |[]|]; try discriminate He;
      reflexivity.
  - reflexivity.
Qed.

Lemma fair_empty order : sets.fair order -> order ∅ = [].
Proof.
  intros F. apply Permutation_nil_r. rewrite (F ∅).
  rewrite elements_empty. reflexivity.
Qed.

(** X9.  When every local address the filter lets through is bound to
    the dummy interface - in particular when there is none -, the pass
    returns the empty list having only read the two sources: the CIDR
    string is not parsed and nothing is logged by [fetchNodeIPs]. *)
Theorem X9_no_candidate_no_detection :
  forall CIDR h node bind ipset,
    sets.fair (host_order h) ->
    collect h = Ok (node, bind, ipset) ->
    node ⊆ bind ->
    ipset = ∅
    /\ value (fetchNodeIPs CIDR h) = Ok []
    /\ trace (fetchNodeIPs CIDR h)
       = (trace (getAllLocalAddresses h) ++ trace (bindedIPs h))%list
    /\ forallb isEnumeration (trace (fetchNodeIPs CIDR h)) = true.
Proof.
  intros CIDR h node bind ipset F Hc Hsub.
  assert (He : ipset = ∅).
  { apply collect_ok_inv in Hc as (? & ? & ? & _ & _ & _ & _ & _ & ->).
    rewrite Difference_eq. apply set_eq. intros s.
    rewrite elem_of_difference. split; [intros (H1 & H2)|intros H].
    - destruct H2. apply Hsub, H1.
    - apply not_elem_of_empty in H. destruct H. }
  subst ipset. split; [reflexivity|].
  destruct (fetchNodeIPs_ok parseIPv6 ip6String strictIP strictCIDR
              CIDR h _ _ _ Hc) as (Hv & Ht).
  unfold Main.conflictFlag, Main.detect, sets.UnsortedList in Ht.
  rewrite (fair_empty _ F) in Hv, Ht. simpl in Hv, Ht.
  rewrite !app_nil_r in Ht.
  split; [exact Hv|]. split; [exact Ht|].
  rewrite Ht, forallb_app, getAllLocalAddresses_trace.
  destruct (bindedIPs_trace ip6String h) as (-> & _). reflexivity.
Qed.

Lemma flag_false_quiet CIDR h node bind ipset :
  collect h = Ok (node, bind, ipset) ->
  conflictFlag CIDR (host_order h) ipset = false ->
  conflictsLogged (trace (fetchNodeIPs CIDR h)) = []
  /\ contextsLogged (trace (fetchNodeIPs CIDR h)) = [].
Proof.
  intros Hc Hflag.
  pose proof (rangeLoop_conflicts parseIPv6 strictIP strictCIDR CIDR
                (host_order h ipset) (mkLoopVars [] false)) as Hcf.
  pose proof (rangeLoop_quiet parseIPv6 strictIP strictCIDR CIDR
                (host_order h ipset) (mkLoopVars [] false)) as (Hq & _).
  assert (Hfind : find (insideCIDR CIDR) (host_order h ipset) = None).
  { destruct (find (insideCIDR CIDR) (host_order h ipset)) as [s|] eqn:Ef;
      [|reflexivity].
    apply find_some in Ef as (Hin & Hs).
    unfold Main.conflictFlag, Main.detect, sets.UnsortedList in Hflag.
    rewrite rangeLoop_invalidIP in Hflag. simpl in Hflag.
    assert (Hex : existsb (insideCIDR CIDR) (host_order h ipset) = true)
      by (apply existsb_exists; eauto).
    congruence. }
  unfold conflictsLogged, contextsLogged in *.
  rewrite !(fetchNodeIPs_observe parseIPv6 ip6String strictIP strictCIDR
              CIDR h _ _ _ _ _ Hc)
    by (intros [] He; try discriminate; reflexivity).
  unfold Main.detect, sets.UnsortedList.
  rewrite Hcf, Hq, Hflag, Hfind. auto.
Qed.

(** X10.  An address bound to the dummy interface never raises a
    conflict: if every local address inside the CIDR is also bound to
    [kube-ipvs0], the flag stays false and neither a conflict line nor a
    context line is logged. *)
Theorem X10_dummy_addresses_never_conflict :
  forall CIDR h node bind ipset,
    sets.fair (host_order h) ->
    collect h = Ok (node, bind, ipset) ->
    (forall ipStr,
        ipStr ∈ node -> insideCIDR CIDR ipStr = true -> ipStr ∈ bind) ->
    conflictFlag CIDR (host_order h) ipset = false
    /\ conflictsLogged (trace (fetchNodeIPs CIDR h)) = []
    /\ contextsLogged (trace (fetchNodeIPs CIDR h)) = [].
Proof.
  intros CIDR h node bind ipset F Hc Hall.
  assert (Hflag : conflictFlag CIDR (host_order h) ipset = false).
  { destruct (conflictFlag CIDR (host_order h) ipset) eqn:Ef; [|reflexivity].
    apply (conflictFlag_spec _ _ _ _ _ _ F) in Ef as (s & Hs & Hi).
    apply collect_ok_inv in Hc as (? & ? & ? & _ & _ & _ & _ & _ & ->).
    apply Difference_elem in Hs as (Hn & Hb).
    destruct Hb. apply Hall; assumption. }
  split; [exact Hflag|]. apply (flag_false_quiet _ _ _ _ _ Hc Hflag).
Qed.

(** X11.  The list a pass returns has no duplicate: it holds one address
    for each member of the candidate set, hence as many addresses as the
    set has members, which is at most the number of local addresses the
    filter lets through. *)
Theorem X11_returned_list_without_duplicates :
  forall CIDR h node bind ipset,
    sets.fair (host_order h) ->
    collect h = Ok (node, bind, ipset) ->
    exists ips,
      value (fetchNodeIPs CIDR h) = Ok ips
      /\ NoDup ips
      /\ length ips = size ipset
      /\ size ipset <= size node.
Proof.
  intros CIDR h node bind ipset F Hc.
  destruct (fetchNodeIPs_ok parseIPv6 ip6String strictIP strictCIDR
              CIDR h _ _ _ Hc) as (Hv & _).
  exists (map ParseIP (host_order h ipset)). split; [exact Hv|].
  pose proof (collect_ok_inv ip6String _ _ _ _ Hc)
    as (allLocal & ifi & virt & _ & _ & _ & Hn & _ & Hd).
  split; [|split].
  - apply NoDup_fmap_2_strong.
    + intros s s' Hs Hs' Heq.
      apply (fair_elem _ _ _ F) in Hs, Hs'. rewrite Hd in Hs, Hs'.
      apply Difference_elem in Hs as (Hs & _).
      apply Difference_elem in Hs' as (Hs' & _).
      rewrite Hn in Hs, Hs'.
      apply AddressSet_elem in Hs as (ip & _ & V & ->).
      apply AddressSet_elem in Hs' as (ip' & _ & V' & ->).
      apply (valid_text_inj parseIPv6 ip6String strictIP); assumption.
    + rewrite (F ipset). apply NoDup_elements.
  - rewrite length_map. apply fair_length, F.
  - apply subseteq_size. rewrite Hd, Difference_eq.
    intros s Hs. apply elem_of_difference in Hs as (Hs & _). exact Hs.
Qed.

(** X13.  What a pass finds does not depend on the order in which the
    candidate set is ranged over: for two fair orders the flag is the
    same, the lists are permutations of one another and the CIDR string
    is parsed as many times; only the address named in the conflict line
    depends on the order. *)
Theorem X13_order_independence :
  forall CIDR order order' (ipset : gset string),
    sets.fair order ->
    sets.fair order' ->
    conflictFlag CIDR order ipset = conflictFlag CIDR order' ipset
    /\ ips (value (detect CIDR order ipset))
       ≡ₚ ips (value (detect CIDR order' ipset))
    /\ length (filter isParseCIDR (trace (detect CIDR order ipset)))
       = length (filter isParseCIDR (trace (detect CIDR order' ipset))).
Proof.
  intros CIDR order order' ipset F F'.
  assert (P : order ipset ≡ₚ order' ipset)
    by (rewrite (F ipset), (F' ipset); reflexivity).
  unfold Main.conflictFlag, Main.detect, sets.UnsortedList.
  rewrite !rangeLoop_invalidIP, !rangeLoop_ips, !rangeLoop_parses. simpl.
  split; [|split].
  - apply existsb_inside_perm, P.
  - apply Permutation_map, P.
  - apply Permutation_length, P.
Qed.

(** X14.  A pass whose sources answer logs at most one conflict line,
    and a context line exactly when it logs a conflict line.  When it
    does, the address named is one of the returned addresses, parsed from
    a candidate that lies inside the CIDR, and the context line is the
    last thing [fetchNodeIPs] does before it returns. *)
Theorem X14_conflict_report_shape :
  forall CIDR h node bind ipset,
    collect h = Ok (node, bind, ipset) ->
    length (conflictsLogged (trace (fetchNodeIPs CIDR h)))
    = length (contextsLogged (trace (fetchNodeIPs CIDR h)))
    /\ length (conflictsLogged (trace (fetchNodeIPs CIDR h))) <= 1
    /\ (forall a,
           a ∈ conflictsLogged (trace (fetchNodeIPs CIDR h)) ->
           exists ipStr t,
             a = ParseIP ipStr
             /\ ipStr ∈ host_order h ipset
             /\ insideCIDR CIDR ipStr = true
             /\ a ∈ map ParseIP (host_order h ipset)
             /\ trace (fetchNodeIPs CIDR h)
                = (t ++ [EvLog (LogContext node bind
                                  (map ParseIP (host_order h ipset)))])%list).
Proof.
  intros CIDR h node bind ipset Hc.
  destruct (conflictFlag CIDR (host_order h) ipset) eqn:Hflag.
  - pose proof (rangeLoop_conflicts parseIPv6 strictIP strictCIDR CIDR
                  (host_order h ipset) (mkLoopVars [] false)) as Hcf.
    pose proof (rangeLoop_quiet parseIPv6 strictIP strictCIDR CIDR
                  (host_order h ipset) (mkLoopVars [] false)) as (Hq & _).
    destruct (fetchNodeIPs_ok parseIPv6 ip6String strictIP strictCIDR
                CIDR h _ _ _ Hc) as (_ & Ht).
    assert (Hfind : exists first,
               find (insideCIDR CIDR) (host_order h ipset) = Some first).
    { unfold Main.conflictFlag, Main.detect, sets.UnsortedList in Hflag.
      rewrite rangeLoop_invalidIP in Hflag. simpl in Hflag.
      destruct (find (insideCIDR CIDR) (host_order h ipset)) as [s|] eqn:Ef;
        [eauto|].
      apply existsb_exists in Hflag as (s & Hin & Hs).
      pose proof (find_none _ _ Ef s Hin). congruence. }
    destruct Hfind as (first & Hfind).
    unfold conflictsLogged, contextsLogged in *.
    rewrite !(fetchNodeIPs_observe parseIPv6 ip6String strictIP strictCIDR
                CIDR h _ _ _ _ _ Hc)
      by (intros [] He; try discriminate; reflexivity).
    unfold Main.detect, sets.UnsortedList in *.
    rewrite Hcf, Hq, Hflag, Hfind. simpl.
    split; [reflexivity|]. split; [lia|].
    intros a Ha. apply list_elem_of_singleton in Ha. subst a.
    apply find_some in Hfind as (Hin & Hs).
    apply list_elem_of_In in Hin.
    exists first. eexists. split; [reflexivity|]. split; [exact Hin|].
    split; [exact Hs|]. split.
    + apply list_elem_of_fmap. exists first. auto.
    + rewrite Ht, Hflag, !app_assoc. reflexivity.
  - destruct (flag_false_quiet _ _ _ _ _ Hc Hflag) as (-> & ->).
    split; [reflexivity|]. split; [simpl; lia|].
    intros a Ha. apply elem_of_nil in Ha. destruct Ha.
Qed.

(** ** The interval argument *)

Lemma decimalFrom_ge s acc : (acc <= decimalFrom s acc)%N.
Proof.
  revert acc. induction s as [|c s IH]; intros acc; simpl; [lia|].
  etransitivity; [|apply IH]. lia.
Qed.

Lemma leadingInt_digits A acc :
  allDigits A = true ->
  (decimalFrom A acc <= 922337203685477580)%N ->
  time.leadingInt (A +:+ "ms") acc = Some (decimalFrom A acc, "ms").
Proof.
  revert acc. induction A as [|c A IH]; intros acc Hd Hb.
  - reflexivity.
  - simpl in Hd. apply andb_true_iff in Hd as (Hc & Hd).
    simpl in Hb.
    pose proof (decimalFrom_ge A (acc * 10 + digitVal c)) as Hge.
    change (String c A +:+ "ms") with (String c (A +:+ "ms")).
    cbn [time.leadingInt]. rewrite Hc. cbn [negb].
    replace (time.two63 `div` 10 <? acc)%N with false
      by (symmetry; apply N.ltb_ge;
          change (time.two63 `div` 10)%N with 922337203685477580%N; lia).
    replace (time.two63 <? acc * 10 + digitVal c)%N with false
      by (symmetry; apply N.ltb_ge; unfold time.two63; lia).
    apply IH; assumption.
Qed.

Lemma length_append_ms A :
  String.length (A +:+ "ms") = S (S (String.length A)).
Proof. induction A as [|c A IH]; simpl; [reflexivity|]. now rewrite IH. Qed.

Lemma parseTerms_digits fuel orig c A :
  allDigits (String c A) = true ->
  (decimal (String c A) <= 9223372036854)%N ->
  time.parseTerms f64MulDiv (S (S fuel)) orig (String c A +:+ "ms") 0
  = Ok (decimal (String c A) * 1000000)%N.
Proof.
  intros Hd Hb.
  assert (Hl : time.leadingInt (String c (A +:+ "ms")) 0
               = Some (decimal (String c A), "ms")).
  { apply (leadingInt_digits (String c A) 0 Hd). unfold decimal in Hb. lia. }
  simpl in Hd. apply andb_true_iff in Hd as (Hc & Hd').
  change (String c A +:+ "ms") with (String c (A +:+ "ms")).
  cbn -[time.leadingInt time.addTerm String.length String.append isDigit
        Ascii.eqb decimal].
  rewrite Hc, orb_true_r. cbn [negb].
  rewrite Hl.
  cbn [String.length]. rewrite length_append_ms.
  assert (Ha : time.addTerm f64MulDiv (decimal (String c A)) 0 1 1000000 0
               = Some (decimal (String c A) * 1000000)%N).
  { unfold time.addTerm.
    change (time.two63 `div` 1000000)%N with 9223372036854%N.
    replace (9223372036854 <? decimal (String c A))%N with false
      by (symmetry; apply N.ltb_ge; exact Hb).
    change (0 <? 0)%N with false. cbv iota zeta. cbn [andb].
    rewrite N.add_0_l, N.mod_small by (unfold time.two64; lia).
    replace (time.two63 <? _)%N with false
      by (symmetry; apply N.ltb_ge; unfold time.two63; lia).
    reflexivity. }
  lazy -[time.addTerm decimal]. rewrite Ha. reflexivity.
Qed.

Lemma ParseDuration_digits A :
  A <> "" ->
  allDigits A = true ->
  (decimal A <= 9223372036854)%N ->
  ParseDuration (A +:+ "ms") = Ok (Z.of_N (decimal A) * 1000000)%Z.
Proof.
  intros Hne Hd Hb. destruct A as [|c A]; [congruence|].
  pose proof (parseTerms_digits (S (String.length A))
                (String c A +:+ "ms") c A Hd Hb) as Hp.
  assert (Hc : isDigit c = true)
    by (simpl in Hd; apply andb_true_iff in Hd as (Hc & _); exact Hc).
  unfold time.ParseDuration.
  change (String c A +:+ "ms") with (String c (A +:+ "ms")) in *.
  assert (E0 : String.eqb (String c (A +:+ "ms")) "0" = false).
  { simpl. destruct A; simpl; destruct (Ascii.eqb c "0"); reflexivity. }
  assert (El : String.length (String c (A +:+ "ms"))
               = S (S (S (String.length A)))).
  { simpl. now rewrite length_append_ms. }
  set (v := decimal (String c A)) in *.
  assert (Hsg : time.signed false (v * 1000000) (String c (A +:+ "ms"))
                = Ok (Z.of_N v * 1000000)%Z).
  { unfold time.signed.
    replace (time.two63 - 1 <? v * 1000000)%N with false
      by (symmetry; apply N.ltb_ge; unfold time.two63; lia).
    f_equal. lia. }
  clearbody v.
  destruct c as [[] [] [] [] [] [] [] []]; try discriminate Hc;
    cbv beta iota zeta; rewrite E0; cbn [String.eqb]; rewrite El, Hp;
    exact Hsg.
Qed.

(** X12.  An interval argument written in decimal digits means that many
    milliseconds: up to 9223372036854 (the largest number of milliseconds
    that fits a [time.Duration]) the start-up code enters the loop with
    the argument times one million nanoseconds, leading zeros and the
    interval 0 included, whatever the CIDR argument and the arguments
    after it. *)
Theorem X12_decimal_interval_is_milliseconds :
  forall prog A CIDR rest,
    A <> "" ->
    allDigits A = true ->
    (decimal A <= 9223372036854)%N ->
    startup (prog :: A :: CIDR :: rest)
    = (EnterLoop (Z.of_N (decimal A) * 1000000)%Z CIDR,
       [EvParseDuration (A +:+ "ms")]).
Proof.
  intros prog A CIDR rest Hne Hd Hb.
  rewrite (startup_long f64MulDiv) by (simpl; lia). simpl.
  rewrite (ParseDuration_digits A Hne Hd Hb). reflexivity.
Qed.

End Extras.

(** * The further properties on the sample hosts *)

Lemma collect_hostA :
  collect Sample.ip6String Sample.hostA
  = Ok ({["10.96.0.10"]} ∪ Sample.setA, {["10.96.0.10"]}, Sample.setA).
Proof. vm_compute. reflexivity. Qed.

Lemma collect_hostBound :
  collect Sample.ip6String Sample.hostBound
  = Ok ({["10.96.0.10"]}, {["10.96.0.10"]}, ∅).
Proof. vm_compute. reflexivity. Qed.

(** X4 on 10.96.0.5 in its two forms, on 2001:db8::1 and on a slice of
    five bytes. *)
Lemma X4_witness :
  IsIPv6 (Some [x0a; x60; x00; x05]) = false
  /\ (IsIPv6 (net.IPv4 x0a x60 x00 x05) = false
      <-> take 12 (net.v4InV6Prefix ++ [x0a; x60; x00; x05])
          = net.v4InV6Prefix)
  /\ (IsIPv6 Sample.global6 = false
      <-> take 12 [x20; x01; x0d; xb8; x00; x00; x00; x00;
                   x00; x00; x00; x00; x00; x00; x00; x01]
          = net.v4InV6Prefix)
  /\ IsIPv6 (Some [x0a; x60; x00; x05; x00]) = true.
Proof.
  split; [|split; [|split]].
  - apply (proj1 (proj2 X4_IsIPv6_by_shape) [x0a; x60; x00; x05] eq_refl).
  - apply (proj1 (proj2 (proj2 X4_IsIPv6_by_shape))
             (net.v4InV6Prefix ++ [x0a; x60; x00; x05])%list eq_refl).
  - apply (proj1 (proj2 (proj2 X4_IsIPv6_by_shape))
             [x20; x01; x0d; xb8; x00; x00; x00; x00;
              x00; x00; x00; x00; x00; x00; x00; x01] eq_refl).
  - apply (proj2 (proj2 (proj2 X4_IsIPv6_by_shape))
             [x0a; x60; x00; x05; x00]); simpl; lia.
Defined.

(** X6 on 10.96.0.5 in its two forms. *)
Lemma X6_witness :
  net.To4 (Some [x0a; x60; x00; x05]) = Some [x0a; x60; x00; x05]
  /\ ParseIP Sample.parseIPv6 true
       (net.IP_String Sample.ip6String (Some [x0a; x60; x00; x05]))
     = net.IPv4 x0a x60 x00 x05
  /\ (net.IP_String Sample.ip6String (Some [x0a; x60; x00; x05])
      = net.IP_String Sample.ip6String (net.IPv4 x0a x60 x00 x05)
      <-> net.To4 (Some [x0a; x60; x00; x05])
          = net.To4 (net.IPv4 x0a x60 x00 x05)).
Proof.
  split; [reflexivity|]. split.
  - apply (proj1 (X6_text_round_trip Sample.parseIPv6 Sample.ip6String true)
             (Some [x0a; x60; x00; x05]) x0a x60 x00 x05 eq_refl).
  - apply (proj2 (proj2 (X6_text_round_trip Sample.parseIPv6
                           Sample.ip6String true))
             (Some [x0a; x60; x00; x05]) (net.IPv4 x0a x60 x00 x05)
             eq_refl eq_refl).
Defined.

(** X7 on the host of scenario D. *)
Lemma X7_witness :
  host_InterfaceByName Sample.hostD "kube-ipvs0"
  = Err "route ip+net: no such network interface"
  /\ Sample.fetchNodeIPs "10.96.0.0/12" Sample.hostD
     = (Err ("Could not get interface kube-ipvs0: "
             +:+ "route ip+net: no such network interface"),
        [EvInterfaceAddrs; EvInterfaceByName "kube-ipvs0"]).
Proof.
  split; [reflexivity|].
  apply (proj1 (proj2 (X7_fetch_error_paths Sample.parseIPv6 Sample.ip6String
                         true true "10.96.0.0/12" Sample.hostD))
           _ _ eq_refl eq_refl).
Defined.

(** X9 on the host whose only admitted address is on the dummy
    interface. *)
Lemma X9_witness :
  sets.fair (host_order Sample.hostBound)
  /\ ({["10.96.0.10"]} : gset string) ⊆ {["10.96.0.10"]}
  /\ value (Sample.fetchNodeIPs "10.96.0.0/12" Sample.hostBound) = Ok []
  /\ forallb isEnumeration
       (trace (Sample.fetchNodeIPs "10.96.0.0/12" Sample.hostBound)) = true.
Proof.
  assert (F : sets.fair (host_order Sample.hostBound))
    by (intros s; reflexivity).
  assert (Hsub : ({["10.96.0.10"]} : gset string) ⊆ {["10.96.0.10"]})
    by (intros s Hs; exact Hs).
  destruct (X9_no_candidate_no_detection Sample.parseIPv6 Sample.ip6String
              true true "10.96.0.0/12" Sample.hostBound _ _ _
              F collect_hostBound Hsub) as (_ & Hv & _ & He).
  split; [exact F|]. split; [exact Hsub|]. split; [exact Hv|exact He].
Defined.

(** X10 on the host of scenario A: 10.96.0.10 is inside 10.96.0.0/12
    and on the dummy interface, 10.0.0.5 is outside. *)
Lemma X10_witness :
  sets.fair (host_order Sample.hostA)
  /\ (forall ipStr : string,
         ipStr ∈ ({["10.96.0.10"]} ∪ Sample.setA : gset string) ->
         insideCIDR Sample.parseIPv6 true true "10.96.0.0/12" ipStr = true ->
         ipStr ∈ ({["10.96.0.10"]} : gset string))
  /\ conflictFlag Sample.parseIPv6 true true "10.96.0.0/12"
       (host_order Sample.hostA) Sample.setA = false
  /\ conflictsLogged (trace (Sample.fetchNodeIPs "10.96.0.0/12" Sample.hostA))
     = [].
Proof.
  assert (F : sets.fair (host_order Sample.hostA)) by (intros s; reflexivity).
  assert (Hall : forall ipStr : string,
             ipStr ∈ ({["10.96.0.10"]} ∪ Sample.setA : gset string) ->
             insideCIDR Sample.parseIPv6 true true "10.96.0.0/12" ipStr
             = true ->
             ipStr ∈ ({["10.96.0.10"]} : gset string)).
  { intros s Hs Hi. apply elem_of_union in Hs as [Hs|Hs]; [exact Hs|].
    apply elem_of_singleton in Hs. subst s. discriminate Hi. }
  destruct (X10_dummy_addresses_never_conflict
              Sample.parseIPv6 Sample.ip6String true true
              "10.96.0.0/12" Sample.hostA _ _ _ F collect_hostA Hall)
    as (Hf & Hl & _).
  split; [exact F|]. split; [exact Hall|]. split; [exact Hf|exact Hl].
Defined.

(** X11 on the host with two candidates. *)
Lemma X11_witness :
  sets.fair (host_order Sample.hostTwo)
  /\ exists ips,
      value (Sample.fetchNodeIPs "10.96.0.0/12" Sample.hostTwo) = Ok ips
      /\ NoDup ips
      /\ length ips = size Sample.setTwo.
Proof.
  assert (F : sets.fair (host_order Sample.hostTwo)) by (intros s; reflexivity).
  destruct (X11_returned_list_without_duplicates
              Sample.parseIPv6 Sample.ip6String true true
              "10.96.0.0/12" Sample.hostTwo _ _ _ F collect_hostTwo)
    as (ips & Hv & Hn & Hl & _).
  split; [exact F|]. exists ips. split; [exact Hv|]. split; [exact Hn|exact Hl].
Defined.

(** X12 on the interval argument 0250. *)
Lemma X12_witness :
  "0250" <> ""
  /\ allDigits "0250" = true
  /\ (decimal "0250" <= 9223372036854)%N
  /\ startup Sample.f64MulDiv ["probe"; "0250"; "10.96.0.0/12"]
     = (EnterLoop 250000000%Z "10.96.0.0/12", [EvParseDuration "0250ms"]).
Proof.
  assert (Hne : "0250" <> "") by discriminate.
  assert (Hd : allDigits "0250" = true) by reflexivity.
  assert (Hb : (decimal "0250" <= 9223372036854)%N) by (vm_compute; discriminate).
  split; [exact Hne|]. split; [exact Hd|]. split; [exact Hb|].
  apply (X12_decimal_interval_is_milliseconds Sample.f64MulDiv
           "probe" "0250" "10.96.0.0/12" [] Hne Hd Hb).
Defined.

(** X13 on the candidate set of two addresses, ranged over in the order
    of [elements] and in the reverse order. *)
Lemma X13_witness :
  sets.fair elements
  /\ sets.fair (fun s => reverse (elements s))
  /\ conflictFlag Sample.parseIPv6 true true "10.96.0.0/12"
       elements Sample.setTwo
     = conflictFlag Sample.parseIPv6 true true "10.96.0.0/12"
         (fun s => reverse (elements s)) Sample.setTwo.
Proof.
  assert (F : sets.fair elements) by (intros s; reflexivity).
  assert (F' : sets.fair (fun s => reverse (elements s)))
    by (intros s; apply reverse_Permutation).
  split; [exact F|]. split; [exact F'|].
  apply (proj1 (X13_order_independence Sample.parseIPv6 true true
                  "10.96.0.0/12" _ _ Sample.setTwo F F')).
Defined.

(** X14 on the host with two candidates. *)
Lemma X14_witness :
  collect Sample.ip6String Sample.hostTwo
  = Ok (Sample.setTwo, ∅, Sample.setTwo)
  /\ length (conflictsLogged
               (trace (Sample.fetchNodeIPs "10.96.0.0/12" Sample.hostTwo)))
     = length (contextsLogged
                 (trace (Sample.fetchNodeIPs "10.96.0.0/12" Sample.hostTwo)))
  /\ length (conflictsLogged
               (trace (Sample.fetchNodeIPs "10.96.0.0/12" Sample.hostTwo)))
     <= 1.
Proof.
  destruct (X14_conflict_report_shape
              Sample.parseIPv6 Sample.ip6String true true
              "10.96.0.0/12" Sample.hostTwo _ _ _ collect_hostTwo)
    as (H1 & H2 & _).
  split; [exact collect_hostTwo|]. split; [exact H1|exact H2].
Defined.
